(** * Scoring API: validation fields, request models, authentication,
      dispatcher, scoring engine and the Redis-backed store.

    A shallow embedding of [my_pr/api.py], [my_pr/scoring.py] and
    [my_pr/store.py], with the properties of the specification stated
    and proved over it.

    Conventions of the embedding.
    - A Python [str] is a [string] (the ASCII fragment; [encode("utf-8")]
      is then the identity).
    - A Python [int] is a [Z]; a Python [float] is a primitive binary64
      [float].
    - A raised exception is the [Raise] result; [ValueError] carries the
      message that [str(e)] shows.
    - Library primitives that the repository only calls (SHA-512, MD5,
      [float(str)], [repr(float)], [json.loads]) are section variables.
    - The wall clock is an explicit argument. *)

From Stdlib Require Import ZArith String Ascii List Bool Lia.
From Stdlib Require Import Floats.PrimFloat.
From stdpp Require Import base gmap strings.

Import ListNotations.
Local Open Scope string_scope.
Local Open Scope Z_scope.

Set Warnings "-register-all".

(** ** Python values and exceptions *)

Inductive pyval : Type :=
| VNone
| VBool (b : bool)
| VInt (n : Z)
| VFloat (f : float)
| VStr (s : string)
| VList (l : list pyval)
| VDict (d : list (string * pyval)).

(** A [dict] keeps insertion order; keyword arguments are visited in
    that order. *)
Definition kwargs := list (string * pyval).

Inductive exn : Type :=
| ValueError (msg : string)
| TypeError
| OverflowError
| ConnectionError.

Inductive result (A : Type) : Type :=
| Ok (a : A)
| Raise (e : exn).
Arguments Ok {A} a.
Arguments Raise {A} e.

Definition rbind {A B} (r : result A) (k : A -> result B) : result B :=
  match r with
  | Ok a => k a
  | Raise e => Raise e
  end.

Declare Scope py_scope.
Delimit Scope py_scope with py.
Notation "'do' x <- r ; k" := (rbind r (fun x => k))
  (at level 10, x name, r at level 100, k at level 200) : py_scope.
Local Open Scope py_scope.

Definition is_ok {A} (r : result A) : bool :=
  match r with Ok _ => true | Raise _ => false end.

(** [v is None] *)
Definition is_None (v : pyval) : bool :=
  match v with VNone => true | _ => false end.

(** [v != ""]: only the empty [str] equals [""]. *)
Definition ne_empty_str (v : pyval) : bool :=
  match v with
  | VStr EmptyString => false
  | _ => true
  end.

(** ** Decimal text: [str.isdigit], [int(str)], [str(int)] *)

Definition is_digit (c : ascii) : bool :=
  (48 <=? Z.of_nat (nat_of_ascii c)) && (Z.of_nat (nat_of_ascii c) <=? 57).

Definition digit_val (c : ascii) : Z := Z.of_nat (nat_of_ascii c) - 48.

Definition digit_char (d : Z) : ascii := ascii_of_nat (Z.to_nat (d + 48)).

Fixpoint all_digits (s : string) : bool :=
  match s with
  | EmptyString => true
  | String c r => is_digit c && all_digits r
  end.

(** [s.isdigit()]: at least one character and every character a digit. *)
Definition isdigit (s : string) : bool :=
  match s with
  | EmptyString => false
  | _ => all_digits s
  end.

(** [int(s)] for a string of digits, most significant digit first. *)
Fixpoint int_digits (acc : Z) (s : string) : Z :=
  match s with
  | EmptyString => acc
  | String c r => int_digits (10 * acc + digit_val c) r
  end.

Definition int_of_str (s : string) : Z := int_digits 0 s.

(** Decimal digits of a natural number, most significant first. The
    fuel bounds the number of digits. *)
Fixpoint str_nat_aux (fuel : nat) (n : Z) : string :=
  match fuel with
  | O => EmptyString
  | S f =>
      if n <? 10 then String (digit_char n) EmptyString
      else str_nat_aux f (n / 10) ++ String (digit_char (n mod 10)) EmptyString
  end.

Definition str_nat (n : Z) : string := str_nat_aux (S (Z.to_nat (Z.log2 n))) n.

(** [str(n)] for an [int]. *)
Definition str_int (n : Z) : string :=
  if n <? 0 then String "-"%char (str_nat (- n)) else str_nat n.

(** [s.zfill(width)] for digit strings. *)
Definition zfill (width : nat) (s : string) : string :=
  String.concat EmptyString (repeat "0" (width - String.length s)) ++ s.

(** [s[0]] when [s] is not empty *)
Definition first_char (s : string) : option ascii :=
  match s with
  | EmptyString => None
  | String c _ => Some c
  end.

(** [c in s] for a single character *)
Fixpoint contains_char (c : ascii) (s : string) : bool :=
  match s with
  | EmptyString => false
  | String a r => Ascii.eqb a c || contains_char c r
  end.

(** Truth value of a [str]: not empty. *)
Definition truthy_str (s : string) : bool :=
  match s with EmptyString => false | _ => true end.

(** ** Dates: the part of [datetime] that the program uses *)

Record datetime := {
  year : Z; month : Z; day : Z;
  hour : Z; minute : Z; second : Z; microsecond : Z
}.

Definition is_leap (y : Z) : bool :=
  (y mod 4 =? 0) && (negb (y mod 100 =? 0) || (y mod 400 =? 0)).

Definition days_in_month (y m : Z) : Z :=
  if m =? 2 then (if is_leap y then 29 else 28)
  else if (m =? 4) || (m =? 6) || (m =? 9) || (m =? 11) then 30
  else 31.

Definition days_before_year (y : Z) : Z :=
  let p := y - 1 in p * 365 + p / 4 - p / 100 + p / 400.

Definition DAYS_BEFORE_MONTH : list Z :=
  [0; 0; 31; 59; 90; 120; 151; 181; 212; 243; 273; 304; 334].

Definition days_before_month (y m : Z) : Z :=
  nth (Z.to_nat m) DAYS_BEFORE_MONTH 0
  + (if (2 <? m) && is_leap y then 1 else 0).

(** [d.toordinal()]: day number, 1 for 0001-01-01. *)
Definition toordinal (d : datetime) : Z :=
  days_before_year (year d) + days_before_month (year d) (month d) + day d.

Definition US_PER_DAY : Z := 86400000000.

Definition time_of_day_us (d : datetime) : Z :=
  ((hour d * 60 + minute d) * 60 + second d) * 1000000 + microsecond d.

(** Microseconds since the start of day 0. Python orders [datetime]
    values field by field; for calendar-valid values that order is the
    order of this number. *)
Definition timestamp_us (d : datetime) : Z :=
  toordinal d * US_PER_DAY + time_of_day_us d.

(** [a < now - datetime.timedelta(days=n)]. The subtraction raises
    [OverflowError] when it leaves the supported range (before year 1). *)
Definition lt_minus_days (a now : datetime) (n : Z) : result bool :=
  if toordinal now - n <? 1 then Raise OverflowError
  else Ok (timestamp_us a <? timestamp_us now - n * US_PER_DAY).

(** [s.partition(".")]: text before the first dot, and the text after
    it when there is a dot. *)
Fixpoint split_dot (s : string) : string * option string :=
  match s with
  | EmptyString => (EmptyString, None)
  | String c r =>
      if Ascii.eqb c "." then (EmptyString, Some r)
      else let '(a, b) := split_dot r in (String c a, b)
  end.

Definition nonzero_digit (c : ascii) : bool :=
  is_digit c && negb (Ascii.eqb c "0").

(** [%d]: 01..31, 1..9, or a space and 1..9. *)
Definition parse_day (s : string) : option Z :=
  match s with
  | String a EmptyString =>
      if nonzero_digit a then Some (digit_val a) else None
  | String a (String b EmptyString) =>
      if Ascii.eqb a " " then
        (if nonzero_digit b then Some (digit_val b) else None)
      else if is_digit a && is_digit b then
        let v := 10 * digit_val a + digit_val b in
        if (1 <=? v) && (v <=? 31) then Some v else None
      else None
  | _ => None
  end.

(** [%m]: 01..12 or 1..9. *)
Definition parse_month (s : string) : option Z :=
  match s with
  | String a EmptyString =>
      if nonzero_digit a then Some (digit_val a) else None
  | String a (String b EmptyString) =>
      if is_digit a && is_digit b then
        let v := 10 * digit_val a + digit_val b in
        if (1 <=? v) && (v <=? 12) then Some v else None
      else None
  | _ => None
  end.

(** [%Y]: exactly four digits. *)
Definition parse_year (s : string) : option Z :=
  if (String.length s =? 4)%nat && all_digits s then Some (int_of_str s)
  else None.

(** [datetime.datetime.strptime(s, "%d.%m.%Y")]; [None] stands for the
    [ValueError] of a text that does not match or is not a calendar
    date. *)
Definition strptime (s : string) : option datetime :=
  let '(ds, r1) := split_dot s in
  match r1 with
  | None => None
  | Some r1 =>
      let '(ms, r2) := split_dot r1 in
      match r2 with
      | None => None
      | Some ys =>
          match parse_day ds, parse_month ms, parse_year ys with
          | Some d, Some m, Some y =>
              if (1 <=? y) && (d <=? days_in_month y m) then
                Some {| year := y; month := m; day := d; hour := 0;
                        minute := 0; second := 0; microsecond := 0 |}
              else None
          | _, _, _ => None
          end
      end
  end.

Definition pad (width : nat) (n : Z) : string := zfill width (str_int n).

(** [d.strftime("%Y%m%d")] *)
Definition strftime_Ymd (d : datetime) : string :=
  pad 4 (year d) ++ pad 2 (month d) ++ pad 2 (day d).

(** [d.strftime("%Y%m%d%H")] *)
Definition strftime_YmdH (d : datetime) : string :=
  strftime_Ymd d ++ pad 2 (hour d).

(** ** api.py: constants *)

Definition SALT : string := "Otus".
Definition ADMIN_LOGIN : string := "admin".
Definition ADMIN_SALT : string := "42".
Definition OK : Z := 200.
Definition BAD_REQUEST : Z := 400.
Definition FORBIDDEN : Z := 403.
Definition NOT_FOUND : Z := 404.
Definition INVALID_REQUEST : Z := 422.
Definition INTERNAL_ERROR : Z := 500.

(** ** api.py: fields

    A [validate] method returns the value it accepts, the phone field
    after conversion to an integer. Each validator below has the type of
    the values its class lets through: text for the character, email
    and date fields, an integer for the phone field, the keyword
    mapping for the arguments field; the gender and client-id fields
    return the Python value unchanged (an [int] may be a [bool]). *)

(** [Field.__set__]: the value bound to the attribute, [None] for an
    absent value. [validate] is the method of the field's class. *)
Definition Field_set {T} (name : string) (required nullable : bool)
    (validate : pyval -> result T) (value : pyval) : result (option T) :=
  if is_None value && required then
    Raise (ValueError (name ++ " is required"))
  else if is_None value && negb nullable then
    Raise (ValueError (name ++ " cannot be null"))
  else if negb (is_None value) then
    do v <- validate value; Ok (Some v)
  else Ok None.

Definition CharField_validate (name : string) (nullable : bool)
    (value : pyval) : result string :=
  match value with
  | VStr s =>
      if negb nullable && negb (truthy_str s) then
        Raise (ValueError (name ++ " cannot be empty"))
      else Ok s
  | _ => Raise (ValueError (name ++ " must be a string"))
  end.

Definition ArgumentsField_validate (value : pyval) : result kwargs :=
  match value with
  | VDict d => Ok d
  | _ => Raise (ValueError "arguments must be a dict")
  end.

Definition EmailField_validate (name : string) (nullable : bool)
    (value : pyval) : result string :=
  do s <- CharField_validate name nullable value;
  if truthy_str s && negb (contains_char "@" s) then
    Raise (ValueError "invalid email")
  else Ok s.

(** [len(str(value)) != 11 or str(value)[0] != "7"] *)
Definition phone_shape_bad (text : string) : bool :=
  negb (String.length text =? 11)%nat
  || negb (match first_char text with
           | Some c => Ascii.eqb c "7"
           | None => false
           end).

Definition PhoneField_validate (value : pyval) : result Z :=
  do value <- match value with
              | VStr s =>
                  if negb (isdigit s) then
                    Raise (ValueError "phone must be digits")
                  else Ok (VInt (int_of_str s))
              | _ => Ok value
              end;
  match value with
  | VInt n =>
      if phone_shape_bad (str_int n) then
        Raise (ValueError "phone must be 11 digits starting with 7")
      else Ok n
  | VBool b =>
      (* a bool is an int; its text is "True" or "False" *)
      if phone_shape_bad (if b then "True" else "False") then
        Raise (ValueError "phone must be 11 digits starting with 7")
      else Ok (if b then 1 else 0)
  | _ => Raise (ValueError "phone must be int or string of digits")
  end.

Definition DateField_validate (value : pyval) : result string :=
  match value with
  | VStr s =>
      match strptime s with
      | Some _ => Ok s
      | None => Raise (ValueError "invalid date format")
      end
  | _ => Raise (ValueError "date must be string")
  end.

Definition BirthDayField_validate (now : datetime) (value : pyval)
    : result string :=
  do s <- DateField_validate value;
  match strptime s with
  | None => Raise (ValueError "invalid date format")
  | Some date =>
      do old <- lt_minus_days date now (70 * 365);
      if (old : bool) then Raise (ValueError "birthday too old") else Ok s
  end.

(** [isinstance(value, int) and value in [0, 1, 2]]; [True == 1] and
    [False == 0]. *)
Definition GenderField_validate (value : pyval) : result pyval :=
  match value with
  | VInt n =>
      if (n =? 0) || (n =? 1) || (n =? 2) then Ok value
      else Raise (ValueError "gender must be 0, 1 or 2")
  | VBool _ => Ok value
  | _ => Raise (ValueError "gender must be 0, 1 or 2")
  end.

Definition isinstance_int (v : pyval) : bool :=
  match v with VInt _ | VBool _ => true | _ => false end.

Definition ClientIDsField_validate (value : pyval) : result (list pyval) :=
  match value with
  | VList l =>
      match l with
      | [] => Raise (ValueError "client_ids cannot be empty")
      | _ =>
          if forallb isinstance_int l then Ok l
          else Raise (ValueError "client_ids must be list of ints")
      end
  | _ => Raise (ValueError "client_ids must be list")
  end.

(** ** api.py: request objects

    An attribute that was never assigned reads as [None]
    ([Field.__get__] uses [instance.__dict__.get]); the records hold
    [None] for it. A keyword that names no field becomes a plain
    attribute, which nothing reads (the special attribute names of
    Python objects are outside the embedding). *)

Record ClientsInterestsRequest := {
  client_ids : option (list pyval);
  date : option string
}.

Definition ClientsInterestsRequest_setattr (self : ClientsInterestsRequest)
    (key : string) (value : pyval) : result ClientsInterestsRequest :=
  if String.eqb key "client_ids" then
    do v <- Field_set "client_ids" true true ClientIDsField_validate value;
    Ok {| client_ids := v; date := date self |}
  else if String.eqb key "date" then
    do v <- Field_set "date" false true DateField_validate value;
    Ok {| client_ids := client_ids self; date := v |}
  else Ok self.

Fixpoint ClientsInterestsRequest_fill (self : ClientsInterestsRequest)
    (kw : kwargs) : result ClientsInterestsRequest :=
  match kw with
  | [] => Ok self
  | (key, value) :: rest =>
      do self <- ClientsInterestsRequest_setattr self key value;
      ClientsInterestsRequest_fill self rest
  end.

(** The constructor, called with keyword arguments [kw]. *)
Definition ClientsInterestsRequest_init (kw : kwargs)
    : result ClientsInterestsRequest :=
  ClientsInterestsRequest_fill {| client_ids := None; date := None |} kw.

Record OnlineScoreRequest := {
  first_name : option string;
  last_name : option string;
  email : option string;
  phone : option Z;
  birthday : option string;
  gender : option pyval
}.

Definition OnlineScoreRequest_setattr (now : datetime)
    (self : OnlineScoreRequest) (key : string) (value : pyval)
    : result OnlineScoreRequest :=
  if String.eqb key "first_name" then
    do v <- Field_set "first_name" false true
              (CharField_validate "first_name" true) value;
    Ok {| first_name := v; last_name := last_name self; email := email self;
          phone := phone self; birthday := birthday self;
          gender := gender self |}
  else if String.eqb key "last_name" then
    do v <- Field_set "last_name" false true
              (CharField_validate "last_name" true) value;
    Ok {| first_name := first_name self; last_name := v; email := email self;
          phone := phone self; birthday := birthday self;
          gender := gender self |}
  else if String.eqb key "email" then
    do v <- Field_set "email" false true
              (EmailField_validate "email" true) value;
    Ok {| first_name := first_name self; last_name := last_name self;
          email := v; phone := phone self; birthday := birthday self;
          gender := gender self |}
  else if String.eqb key "phone" then
    do v <- Field_set "phone" false true PhoneField_validate value;
    Ok {| first_name := first_name self; last_name := last_name self;
          email := email self; phone := v; birthday := birthday self;
          gender := gender self |}
  else if String.eqb key "birthday" then
    do v <- Field_set "birthday" false true (BirthDayField_validate now) value;
    Ok {| first_name := first_name self; last_name := last_name self;
          email := email self; phone := phone self; birthday := v;
          gender := gender self |}
  else if String.eqb key "gender" then
    do v <- Field_set "gender" false true GenderField_validate value;
    Ok {| first_name := first_name self; last_name := last_name self;
          email := email self; phone := phone self; birthday := birthday self;
          gender := v |}
  else Ok self.

Fixpoint OnlineScoreRequest_fill (now : datetime) (self : OnlineScoreRequest)
    (kw : kwargs) : result OnlineScoreRequest :=
  match kw with
  | [] => Ok self
  | (key, value) :: rest =>
      do self <- OnlineScoreRequest_setattr now self key value;
      OnlineScoreRequest_fill now self rest
  end.

Definition OnlineScoreRequest_empty : OnlineScoreRequest :=
  {| first_name := None; last_name := None; email := None; phone := None;
     birthday := None; gender := None |}.

(** The constructor, called with keyword arguments [kw]. *)
Definition OnlineScoreRequest_init (now : datetime) (kw : kwargs)
    : result OnlineScoreRequest :=
  OnlineScoreRequest_fill now OnlineScoreRequest_empty kw.

Record MethodRequest := {
  account : option string;
  login : option string;
  token : option string;
  arguments : option kwargs;
  method : option string
}.

Definition allowed_fields : list string :=
  ["account"; "login"; "token"; "arguments"; "method"].

Definition MethodRequest_setattr (self : MethodRequest) (key : string)
    (value : pyval) : result MethodRequest :=
  if String.eqb key "account" then
    do v <- Field_set "account" false true
              (CharField_validate "account" true) value;
    Ok {| account := v; login := login self; token := token self;
          arguments := arguments self; method := method self |}
  else if String.eqb key "login" then
    do v <- Field_set "login" true true (CharField_validate "login" true) value;
    Ok {| account := account self; login := v; token := token self;
          arguments := arguments self; method := method self |}
  else if String.eqb key "token" then
    do v <- Field_set "token" true true (CharField_validate "token" true) value;
    Ok {| account := account self; login := login self; token := v;
          arguments := arguments self; method := method self |}
  else if String.eqb key "arguments" then
    do v <- Field_set "arguments" true true ArgumentsField_validate value;
    Ok {| account := account self; login := login self; token := token self;
          arguments := v; method := method self |}
  else if String.eqb key "method" then
    do v <- Field_set "method" true true
              (CharField_validate "method" true) value;
    Ok {| account := account self; login := login self; token := token self;
          arguments := arguments self; method := v |}
  else Ok self.

Fixpoint MethodRequest_fill (self : MethodRequest) (kw : kwargs)
    : result MethodRequest :=
  match kw with
  | [] => Ok self
  | (key, value) :: rest =>
      if negb (existsb (String.eqb key) allowed_fields) then
        Raise (ValueError ("Unknown field: " ++ key))
      else
        do self <- MethodRequest_setattr self key value;
        MethodRequest_fill self rest
  end.

Definition MethodRequest_empty : MethodRequest :=
  {| account := None; login := None; token := None; arguments := None;
     method := None |}.

(** The constructor, called with keyword arguments [kw]. *)
Definition MethodRequest_init (kw : kwargs) : result MethodRequest :=
  MethodRequest_fill MethodRequest_empty kw.

Definition is_admin (self : MethodRequest) : bool :=
  match login self with
  | Some l => String.eqb l ADMIN_LOGIN
  | None => false
  end.

(** [x or ""] for an attribute that is a [str] or [None] (a [str] is
    its own [str(...)]) *)
Definition or_empty (x : option string) : string :=
  match x with
  | Some s => s
  | None => EmptyString
  end.

(** Which fields each request class declares with [required=True]. *)
Definition MethodRequest_required : list string :=
  ["login"; "token"; "arguments"; "method"].
Definition OnlineScoreRequest_required : list string := [].
Definition ClientsInterestsRequest_required : list string := ["client_ids"].

(** ** store.py: the Redis client and the store *)

(** A client object made by [redis.Redis(...)]; [object_id] tells one
    object from another. *)
Record Redis := {
  redis_host : string;
  redis_port : Z;
  redis_db : Z;
  socket_timeout : Z;
  socket_connect_timeout : Z;
  decode_responses : bool;
  object_id : nat
}.

Inductive command : Type :=
| GET (key : string)
| SETEX (key : string) (ttl : Z) (value : string).

(** What happened, oldest first: a command sent through a client
    object (and whether the connection failed), or a client object
    made by [_connect]. *)
Inductive event : Type :=
| Attempt (client_id : nat) (c : command) (failed : bool)
| Connect (client_id : nat).

(** The server and the network. [data] maps a key to its value and
    time-to-live; [faults] says, for the coming commands in order,
    whether the connection fails ([true]); after the list every command
    goes through. *)
Record backend := {
  data : gmap string (string * Z);
  faults : list bool;
  next_id : nat;
  trace : list event
}.

Record Store := {
  host : string;
  port : Z;
  db : Z;
  retries : Z;
  timeout : Z;
  client : Redis
}.

Record world := {
  store : Store;
  redis : backend
}.

(** Computations that read and change the world and may raise. *)
Definition M (A : Type) : Type := world -> result A * world.

Definition ret {A} (a : A) : M A := fun w => (Ok a, w).

Definition raise {A} (e : exn) : M A := fun w => (Raise e, w).

Definition bind {A B} (m : M A) (k : A -> M B) : M B :=
  fun w =>
    match m w with
    | (Ok a, w') => k a w'
    | (Raise e, w') => (Raise e, w')
    end.

Notation "'run' x <- m ; k" := (bind m (fun x => k))
  (at level 10, x name, m at level 100, k at level 200) : py_scope.

(** [try: m  except redis.ConnectionError: handler] *)
Definition except_ConnectionError {A} (m : M A) (handler : M A) : M A :=
  fun w =>
    match m w with
    | (Raise ConnectionError, w') => handler w'
    | r => r
    end.

Definition log (e : event) (b : backend) : backend :=
  {| data := data b; faults := faults b; next_id := next_id b;
     trace := trace b ++ [e] |}.

(** [Store._connect]: a new client object replaces [self.client]. *)
Definition _connect (w : world) : world :=
  let self := store w in
  let b := redis w in
  {| store :=
       {| host := host self; port := port self; db := db self;
          retries := retries self; timeout := timeout self;
          client :=
            {| redis_host := host self; redis_port := port self;
               redis_db := db self; socket_timeout := timeout self;
               socket_connect_timeout := timeout self;
               decode_responses := true; object_id := next_id b |} |};
     redis :=
       log (Connect (next_id b))
         {| data := data b; faults := faults b; next_id := S (next_id b);
            trace := trace b |} |}.

(** [Store(host, port, db, retries, timeout)] over a given backend. *)
Definition Store_init (host : string) (port db retries timeout : Z)
    (b : backend) : world :=
  _connect
    {| store :=
         {| host := host; port := port; db := db; retries := retries;
            timeout := timeout;
            client :=
              {| redis_host := host; redis_port := port; redis_db := db;
                 socket_timeout := timeout; socket_connect_timeout := timeout;
                 decode_responses := true; object_id := next_id b |} |};
       redis := b |}.

Definition next_fault (b : backend) : bool :=
  match faults b with
  | true :: _ => true
  | _ => false
  end.

Definition run_command (c : command) (d : gmap string (string * Z))
    : gmap string (string * Z) :=
  match c with
  | GET _ => d
  | SETEX key ttl value => <[key := (value, ttl)]> d
  end.

(** One command sent through the client object [c]. *)
Definition redis_call {A} (c : Redis) (cmd : command)
    (reply : gmap string (string * Z) -> A) : M A :=
  fun w =>
    let b := redis w in
    let failed := next_fault b in
    let b' :=
      log (Attempt (object_id c) cmd failed)
        {| data := if failed then data b else run_command cmd (data b);
           faults := tl (faults b); next_id := next_id b;
           trace := trace b |} in
    (if failed then Raise ConnectionError else Ok (reply (data b)),
     {| store := store w; redis := b' |}).

(** [c.get(key)] with [decode_responses=True]: the text or [None]. *)
Definition Redis_get (c : Redis) (key : string) : M (option string) :=
  redis_call c (GET key) (fun d => fst <$> d !! key).

(** [c.setex(key, ttl, value)] with the value already encoded. *)
Definition Redis_setex (c : Redis) (key : string) (ttl : Z) (value : string)
    : M bool :=
  redis_call c (SETEX key ttl value) (fun _ => true).

(** The loop [for attempt in range(self.retries)] of
    [_execute_with_retry], with [remaining] iterations left. *)
Fixpoint retry_loop {A} (func : M A) (remaining : nat) (attempt : Z) : M A :=
  match remaining with
  | O => raise ConnectionError
  | S k =>
      fun w =>
        match func w with
        | (Raise ConnectionError, w') =>
            if attempt =? retries (store w') - 1 then
              (Raise ConnectionError, w')
            else retry_loop func k (attempt + 1) (_connect w')
        | r => r
        end
  end.

(** [func] is the bound method that the caller evaluated before the
    call: it stays bound to the client object of that moment. *)
Definition _execute_with_retry {A} (func : M A) : M A :=
  fun w => retry_loop func (Z.to_nat (retries (store w))) 0 w.

Definition Store_get (key : string) : M (option string) :=
  fun w => _execute_with_retry (Redis_get (client (store w)) key) w.

Definition cache_get (key : string) : M (option string) :=
  except_ConnectionError
    (fun w => _execute_with_retry (Redis_get (client (store w)) key) w)
    (ret None).

Definition events_since (w w' : world) : list event :=
  drop (length (trace (redis w))) (trace (redis w')).

Definition is_attempt (e : event) : bool :=
  match e with Attempt _ _ _ => true | Connect _ => false end.

Definition attempts (l : list event) : nat :=
  length (List.filter is_attempt l).

(** The events of one operation are well formed when every attempt
    but the last one failed and is followed at once by the making of a
    client object. *)
Inductive rebuilt_between : list event -> Prop :=
| rb_none : rebuilt_between []
| rb_last id c failed : rebuilt_between [Attempt id c failed]
| rb_retry id c id' l :
    rebuilt_between l ->
    rebuilt_between (Attempt id c true :: Connect id' :: l).

Section Api.

(** Library primitives. *)
Variable sha512_hex : string -> string.
Variable md5_hex : string -> string.
(** [float(s)]; [None] stands for its [ValueError]. *)
Variable float_of_str : string -> option float.
(** [repr(x)], the text the client library sends for a float. *)
Variable repr_float : float -> string.
(** [json.loads(s)]; [None] stands for its [ValueError]. *)
Variable json_loads : string -> option pyval.

Definition cache_set (key : string) (value : float) (ttl : Z) : M unit :=
  except_ConnectionError
    (fun w =>
       bind
         (_execute_with_retry
            (Redis_setex (client (store w)) key ttl (repr_float value)))
         (fun _ => ret tt) w)
    (ret tt).

(** ** api.py: authentication *)

Definition check_auth (now : datetime) (request : MethodRequest) : bool :=
  let digest :=
    if is_admin request then
      sha512_hex (strftime_YmdH now ++ ADMIN_SALT)
    else
      sha512_hex (or_empty (account request) ++ or_empty (login request)
                  ++ SALT) in
  match token request with
  | Some t => String.eqb digest t
  | None => false
  end.

(** The digest the specification expects for a request. *)
Definition expected_digest (now : datetime) (request : MethodRequest)
    : string :=
  match login request with
  | Some l =>
      if String.eqb l "admin" then sha512_hex (strftime_YmdH now ++ "42")
      else
        sha512_hex
          (match account request with Some a => a | None => EmptyString end
           ++ l ++ "Otus")
  | None =>
      sha512_hex
        (match account request with Some a => a | None => EmptyString end
         ++ EmptyString ++ "Otus")
  end.

(** ** scoring.py *)

Definition truthy_int (n : Z) : bool := negb (n =? 0).

Definition some_and {T} (p : T -> bool) (x : option T) : bool :=
  match x with
  | Some v => p v
  | None => false
  end.

(** [if x:] for an optional text or number *)
Definition truthy_opt_str : option string -> bool := some_and truthy_str.
Definition truthy_opt_int : option Z -> bool := some_and truthy_int.

Definition is_Some_b {T} (x : option T) : bool :=
  match x with Some _ => true | None => false end.

Definition cache_key (phone : option Z) (birthday first_name last_name
    : option string) : result string :=
  let key_parts0 := or_empty first_name in
  let key_parts1 := or_empty last_name in
  let key_parts2 :=
    match phone with
    | Some n => if truthy_int n then str_int n else EmptyString
    | None => EmptyString
    end in
  do key_parts3 <-
    match birthday with
    | Some b =>
        if truthy_str b then
          match strptime b with
          | Some bday => Ok (strftime_Ymd bday)
          | None => Raise (ValueError "time data does not match format")
          end
        else Ok EmptyString
    | None => Ok EmptyString
    end;
  Ok ("uid:" ++ md5_hex (key_parts0 ++ key_parts1 ++ key_parts2 ++ key_parts3)).

(** The additions of [get_score] after a cache miss, in its order. *)
Definition compute_score (phone : option Z) (email birthday : option string)
    (gender : option pyval) (first_name last_name : option string) : float :=
  let score := 0%float in
  let score := if truthy_opt_int phone then (score + 1.5)%float else score in
  let score := if truthy_opt_str email then (score + 1.5)%float else score in
  let score := if truthy_opt_str birthday && is_Some_b gender
               then (score + 1.5)%float else score in
  let score := if truthy_opt_str first_name && truthy_opt_str last_name
               then (score + 0.5)%float else score in
  score.

Definition get_score (phone : option Z) (email birthday : option string)
    (gender : option pyval) (first_name last_name : option string) : M float :=
  match cache_key phone birthday first_name last_name with
  | Raise e => raise e
  | Ok key =>
      run score <- cache_get key;
      match score with
      | Some text =>
          match float_of_str text with
          | Some x => ret x
          | None => raise (ValueError "could not convert string to float")
          end
      | None =>
          let score :=
            compute_score phone email birthday gender first_name last_name in
          run _u <- cache_set key score (60 * 60);
          ret score
      end
  end.

(** [str(cid)] for a client id, an [int] (or [bool]) after validation *)
Definition str_cid (cid : pyval) : string :=
  match cid with
  | VInt n => str_int n
  | VBool true => "True"
  | VBool false => "False"
  | _ => EmptyString
  end.

Definition get_interests (cid : pyval) : M pyval :=
  run r <- Store_get ("i:" ++ str_cid cid);
  match r with
  | Some text =>
      if truthy_str text then
        match json_loads text with
        | Some v => ret v
        | None => raise (ValueError "json")
        end
      else ret (VList [])
  | None => ret (VList [])
  end.

(** ** api.py: the dispatcher *)

(** [p is not None and p != ""] *)
Definition filled (p : pyval) : bool := negb (is_None p) && ne_empty_str p.

(** The value an attribute reads as *)
Definition attr {T} (inj : T -> pyval) (x : option T) : pyval :=
  match x with
  | Some v => inj v
  | None => VNone
  end.

Definition pairs (args_obj : OnlineScoreRequest) : list (list pyval) :=
  [ [attr VInt (phone args_obj); attr VStr (email args_obj)];
    [attr VStr (first_name args_obj); attr VStr (last_name args_obj)];
    [attr (fun v => v) (gender args_obj); attr VStr (birthday args_obj)] ].

(** [any(all(p is not None and p != "" for p in pair) for pair in pairs)] *)
Definition any_pair_filled (args_obj : OnlineScoreRequest) : bool :=
  existsb (forallb filled) (pairs args_obj).

(** [[k for k, v in arguments.items() if v is not None and v != ""]] *)
Definition has_keys (arguments : kwargs) : list string :=
  map fst (List.filter (fun kv => filled (snd kv)) arguments).

(** [response[key] = value] on a dict *)
Fixpoint dict_set (d : list (string * pyval)) (key : string) (value : pyval)
    : list (string * pyval) :=
  match d with
  | [] => [(key, value)]
  | (k, v) :: rest =>
      if String.eqb k key then (k, value) :: rest
      else (k, v) :: dict_set rest key value
  end.

(** The loop over [args_obj.client_ids] of the [clients_interests]
    branch. *)
Fixpoint interests_loop (ids : list pyval) (response : list (string * pyval))
    : M (list (string * pyval)) :=
  match ids with
  | [] => ret response
  | cid :: rest =>
      run v <- get_interests cid;
      interests_loop rest (dict_set response (str_cid cid) v)
  end.

Definition context := gmap string pyval.

(** What a call of [method_handler] leaves: the returned pair or the
    exception that escapes, the context dict, and the world. *)
Record outcome := {
  returned : result (pyval * Z);
  ctx_after : context;
  world_after : world
}.

(** [method_handler(request, ctx, store)] with [body = request["body"]].
    [now_auth] is the clock as [check_auth] reads it, [now_args] as the
    birthday field reads it. *)
Definition method_handler (now_auth now_args : datetime) (body : kwargs)
    (ctx : context) (w : world) : outcome :=
  match MethodRequest_init body with
  | Raise (ValueError msg) =>
      {| returned := Ok (VStr msg, INVALID_REQUEST); ctx_after := ctx;
         world_after := w |}
  | Raise e => {| returned := Raise e; ctx_after := ctx; world_after := w |}
  | Ok req =>
      if negb (check_auth now_auth req) then
        {| returned := Ok (VStr "Forbidden", FORBIDDEN); ctx_after := ctx;
           world_after := w |}
      else if some_and (String.eqb "online_score") (method req) then
        match arguments req with
        | None =>
            (* unpacking [None] as keyword arguments *)
            {| returned := Raise TypeError; ctx_after := ctx;
               world_after := w |}
        | Some arguments =>
            match OnlineScoreRequest_init now_args arguments with
            | Raise (ValueError msg) =>
                {| returned := Ok (VStr msg, INVALID_REQUEST);
                   ctx_after := ctx; world_after := w |}
            | Raise e =>
                {| returned := Raise e; ctx_after := ctx; world_after := w |}
            | Ok args_obj =>
                if negb (any_pair_filled args_obj) then
                  {| returned :=
                       Ok (VStr "at least one pair must be filled",
                           INVALID_REQUEST);
                     ctx_after := ctx; world_after := w |}
                else
                  let ctx :=
                    <["has" := VList (map VStr (has_keys arguments))]> ctx in
                  if is_admin req then
                    {| returned := Ok (VDict [("score", VInt 42)], OK);
                       ctx_after := ctx; world_after := w |}
                  else
                    let '(r, w') :=
                      get_score (phone args_obj) (email args_obj)
                        (birthday args_obj) (gender args_obj)
                        (first_name args_obj) (last_name args_obj) w in
                    {| returned :=
                         do score <- r;
                         Ok (VDict [("score", VFloat score)], OK);
                       ctx_after := ctx; world_after := w' |}
            end
        end
      else if some_and (String.eqb "clients_interests") (method req) then
        match arguments req with
        | None =>
            {| returned := Raise TypeError; ctx_after := ctx;
               world_after := w |}
        | Some arguments =>
            match ClientsInterestsRequest_init arguments with
            | Raise (ValueError msg) =>
                {| returned := Ok (VStr msg, INVALID_REQUEST);
                   ctx_after := ctx; world_after := w |}
            | Raise e =>
                {| returned := Raise e; ctx_after := ctx; world_after := w |}
            | Ok args_obj =>
                match client_ids args_obj with
                | None =>
                    (* [len(None)] *)
                    {| returned := Raise TypeError; ctx_after := ctx;
                       world_after := w |}
                | Some ids =>
                    let ctx :=
                      <["nclients" := VInt (Z.of_nat (length ids))]> ctx in
                    let '(r, w') := interests_loop ids [] w in
                    {| returned := do response <- r; Ok (VDict response, OK);
                       ctx_after := ctx; world_after := w' |}
                end
            end
        end
      else
        {| returned := Ok (VStr "unknown method", NOT_FOUND);
           ctx_after := ctx; world_after := w |}
  end.

(** ** api.py: the HTTP handler

    [do_POST] without the transport: what it reads is the path and the
    outcome of reading and parsing the body, what it writes is the
    status line and the JSON value. Logging and the request id leave no
    trace in either. *)

Definition ERRORS : list (Z * string) :=
  [ (BAD_REQUEST, "Bad Request");
    (FORBIDDEN, "Forbidden");
    (NOT_FOUND, "Not Found");
    (INVALID_REQUEST, "Invalid Request");
    (INTERNAL_ERROR, "Internal Server Error") ].

(** [ERRORS.get(code)] *)
Fixpoint errors_get (errors : list (Z * string)) (code : Z) : option string :=
  match errors with
  | [] => None
  | (c, text) :: rest => if c =? code then Some text else errors_get rest code
  end.

(** The truth value of a Python value *)
Definition py_truthy (v : pyval) : bool :=
  match v with
  | VNone => false
  | VBool b => b
  | VInt n => negb (n =? 0)
  | VFloat f => negb (PrimFloat.eqb f 0)
  | VStr s => truthy_str s
  | VList l => match l with [] => false | _ => true end
  | VDict d => match d with [] => false | _ => true end
  end.

Fixpoint lstrip_slash (s : string) : string :=
  match s with
  | String c r => if Ascii.eqb c "/" then lstrip_slash r else s
  | EmptyString => EmptyString
  end.

Fixpoint rstrip_slash (s : string) : string :=
  match s with
  | EmptyString => EmptyString
  | String c r =>
      match rstrip_slash r with
      | EmptyString =>
          if Ascii.eqb c "/" then EmptyString else String c EmptyString
      | r' => String c r'
      end
  end.

(** [s.strip("/")] *)
Definition strip_slash (s : string) : string := rstrip_slash (lstrip_slash s).

(** What [do_POST] sends, and the world it leaves. *)
Record reply := {
  status : Z;
  written : pyval;
  world_left : world
}.

(** [parsed] is the outcome of the [try] block that reads and parses
    the body: the JSON value, or [None] when anything in it raised. *)
Definition do_POST (now_auth now_args : datetime) (path : string)
    (parsed : option pyval) (context : gmap string pyval) (w : world)
    : reply :=
  let response := VDict [] in
  let code := OK in
  let request := match parsed with Some v => v | None => VNone end in
  let code := match parsed with Some _ => code | None => BAD_REQUEST end in
  let '(response, code, w) :=
    if py_truthy request then
      if String.eqb (strip_slash path) "method" then
        match request with
        | VDict body =>
            let out := method_handler now_auth now_args body context w in
            match returned out with
            | Ok (response, code) => (response, code, world_after out)
            | Raise _ => (response, INTERNAL_ERROR, world_after out)
            end
        | _ =>
            (* unpacking a value that is not a mapping: TypeError *)
            (response, INTERNAL_ERROR, w)
        end
      else (response, NOT_FOUND, w)
    else (response, code, w) in
  let r :=
    match errors_get ERRORS code with
    | None => VDict [("response", response); ("code", VInt code)]
    | Some text =>
        VDict [("error", if py_truthy response then response else VStr text);
               ("code", VInt code)]
    end in
  {| status := code; written := r; world_left := w |}.

(** ** Notions used to state the properties *)

(** The integers that have eleven decimal digits, the first one 7. *)
Definition phone_range (n : Z) : Prop := 70000000000 <= n <= 79999999999.

Definition phone_error : exn :=
  ValueError "phone must be 11 digits starting with 7".

Inductive request_class : Type :=
| MethodRequest_class
| OnlineScoreRequest_class
| ClientsInterestsRequest_class.

(** The fields a class declares with [required=True]. *)
Definition required_fields (c : request_class) : list string :=
  match c with
  | MethodRequest_class => MethodRequest_required
  | OnlineScoreRequest_class => OnlineScoreRequest_required
  | ClientsInterestsRequest_class => ClientsInterestsRequest_required
  end.

(** Constructing an object of the class, keeping only whether it
    fails. *)
Definition construct (now : datetime) (c : request_class) (kw : kwargs)
    : result unit :=
  match c with
  | MethodRequest_class => do _r <- MethodRequest_init kw; Ok tt
  | OnlineScoreRequest_class => do _r <- OnlineScoreRequest_init now kw; Ok tt
  | ClientsInterestsRequest_class =>
      do _r <- ClientsInterestsRequest_init kw; Ok tt
  end.

(** [dict.get(key)] on keyword arguments *)
Fixpoint kw_get (kw : kwargs) (key : string) : option pyval :=
  match kw with
  | [] => None
  | (k, v) :: rest => if String.eqb k key then Some v else kw_get rest key
  end.


(** The three operations of the store. *)
Inductive operation : Type :=
| Get (key : string)
| CacheGet (key : string)
| CacheSet (key : string) (value : float) (ttl : Z).

(** Running an operation; [cache_set] returns nothing. *)
Definition perform (op : operation) : M (option string) :=
  match op with
  | Get key => Store_get key
  | CacheGet key => cache_get key
  | CacheSet key value ttl => run _u <- cache_set key value ttl; ret None
  end.

(** The next [n] commands all meet a connection failure. *)
Definition all_fail (n : nat) (fs : list bool) : Prop :=
  take n fs = replicate n true.

(** What a run of the retry loop leaves behind, for a command sent
    through the client object [c]: [l] are the events it added. *)
Record retry_post (c : Redis) (cmd : command) (bound : nat) (w w' : world)
    (l : list event) : Prop := {
  post_trace : trace (redis w') = (trace (redis w) ++ l)%list;
  post_shape : rebuilt_between l;
  post_bound : (attempts l <= bound)%nat;
  post_retries : retries (store w') = retries (store w);
  post_same : (attempts l <= 1)%nat -> store w' = store w;
  post_fresh :
    (1 < attempts l)%nat ->
    (next_id (redis w) <= object_id (client (store w')))%nat;
  post_next : (next_id (redis w) <= next_id (redis w'))%nat;
  post_bound_client :
    forall id cm failed, In (Attempt id cm failed) l ->
                         id = object_id c /\ cm = cmd
}.


(** The score as the specification words it: the sum of the four
    components that are due. *)
Definition spec_score (phone_present email_present birthday_present
    gender_present first_name_present last_name_present : bool) : float :=
  ((if phone_present then 1.5 else 0)
   + (if email_present then 1.5 else 0)
   + (if birthday_present && gender_present then 1.5 else 0)
   + (if first_name_present && last_name_present then 0.5 else 0))%float.

(** A value that is neither absent nor empty. *)
Definition present_nonempty (v : pyval) : Prop :=
  v <> VNone /\ v <> VStr EmptyString.

(** The pair rule as the specification words it: (phone, email),
    (first_name, last_name) or (gender, birthday) has both members
    neither absent nor empty. *)
Definition pair_rule (o : OnlineScoreRequest) : Prop :=
  (present_nonempty (attr VInt (phone o))
   /\ present_nonempty (attr VStr (email o)))
  \/ (present_nonempty (attr VStr (first_name o))
      /\ present_nonempty (attr VStr (last_name o)))
  \/ (present_nonempty (attr (fun v => v) (gender o))
      /\ present_nonempty (attr VStr (birthday o))).

Definition pair_rule_message : pyval :=
  VStr "at least one pair must be filled".

Definition score_response (score : pyval) : result (pyval * Z) :=
  Ok (VDict [("score", score)], 200).

(** Every text the cache may return reads as a number. *)
Definition cache_parses (w : world) : Prop :=
  forall key text,
    fst (cache_get key w) = Ok (Some text) -> float_of_str text <> None.

(** An authenticated [online_score] call whose arguments construct the
    request object [o]. *)
Record online_score_call (now_auth now_args : datetime) (body : kwargs)
    (req : MethodRequest) (o : OnlineScoreRequest) : Prop := {
  call_request : MethodRequest_init body = Ok req;
  call_auth : check_auth now_auth req = true;
  call_method : method req = Some "online_score";
  call_arguments :
    exists args,
      arguments req = Some args /\ OnlineScoreRequest_init now_args args = Ok o
}.


(** The birthday of a request object, when there is one, parses. *)
Definition birthday_parses (o : OnlineScoreRequest) : Prop :=
  forall b, birthday o = Some b -> strptime b <> None.

Definition float_error : exn :=
  ValueError "could not convert string to float".

(** ** Sample data for the worked examples

    Stand-ins for the library primitives, a clock and two backends: one
    that works and one whose next three commands fail. *)

Definition sample_sha512 (s : string) : string := "sha512:" ++ s.
Definition sample_md5 (s : string) : string := "md5:" ++ s.
Definition sample_float_of_str (s : string) : option float :=
  if String.eqb s "3.0" then Some 3%float
  else if String.eqb s "1.5" then Some 1.5%float
  else None.
Definition sample_repr_float (x : float) : string :=
  if PrimFloat.eqb x 3 then "3.0"
  else if PrimFloat.eqb x 1.5 then "1.5"
  else "other".
Definition sample_json_loads (s : string) : option pyval :=
  if String.eqb s "[]" then Some (VList []) else None.

Definition sample_now : datetime :=
  {| year := 2026; month := 11; day := 4; hour := 12; minute := 30;
     second := 0; microsecond := 0 |}.

Definition sample_backend (fs : list bool) : backend :=
  {| data := ∅; faults := fs; next_id := O; trace := [] |}.

Definition sample_world : world :=
  Store_init "localhost" 6379 0 3 1 (sample_backend []).

Definition failing_world : world :=
  Store_init "localhost" 6379 0 3 1 (sample_backend [true; true; true]).

Definition sample_arguments : kwargs :=
  [("phone", VStr "79175002040"); ("email", VStr "a@b.com")].

Definition sample_body : kwargs :=
  [("account", VStr "horns&hoofs"); ("login", VStr "h&f");
   ("method", VStr "online_score");
   ("token", VStr (sample_sha512 "horns&hoofsh&fOtus"));
   ("arguments", VDict sample_arguments)].

Definition sample_admin_body : kwargs :=
  [("login", VStr "admin"); ("method", VStr "online_score");
   ("token", VStr (sample_sha512 "202611041242"));
   ("arguments", VDict sample_arguments)].

Definition sample_gender_body : kwargs :=
  [("account", VStr "horns&hoofs"); ("login", VStr "h&f");
   ("method", VStr "online_score");
   ("token", VStr (sample_sha512 "horns&hoofsh&fOtus"));
   ("arguments", VDict [("gender", VInt 0); ("birthday", VStr "01.01.2000")])].

Definition sample_request : MethodRequest :=
  {| account := Some "horns&hoofs"; login := Some "h&f";
     token := Some (sample_sha512 "horns&hoofsh&fOtus");
     arguments := Some sample_arguments; method := Some "online_score" |}.

Definition sample_admin_request : MethodRequest :=
  {| account := None; login := Some "admin";
     token := Some (sample_sha512 "202611041242");
     arguments := Some sample_arguments; method := Some "online_score" |}.

Definition sample_gender_request : MethodRequest :=
  {| account := Some "horns&hoofs"; login := Some "h&f";
     token := Some (sample_sha512 "horns&hoofsh&fOtus");
     arguments :=
       Some [("gender", VInt 0); ("birthday", VStr "01.01.2000")];
     method := Some "online_score" |}.

Definition sample_object : OnlineScoreRequest :=
  {| first_name := None; last_name := None; email := Some "a@b.com";
     phone := Some 79175002040; birthday := None; gender := None |}.

Definition sample_gender_object : OnlineScoreRequest :=
  {| first_name := None; last_name := None; email := None; phone := None;
     birthday := Some "01.01.2000"; gender := Some (VInt 0) |}.

(** The request of the authentication test: no [method], no
    [arguments]. *)
Definition partial_body : kwargs :=
  [("login", VStr "admin"); ("token", VStr "expected_digest")].


(** ** Notions used to state further properties of the store *)

(** The first [j] coming commands fail and the one after them goes
    through. *)
Definition fails_then_works (j : nat) (fs : list bool) : Prop :=
  all_fail j fs /\ head (drop j fs) <> Some true.

(** The client objects made among the events. *)
Definition connects (l : list event) : nat :=
  length (List.filter (fun e => negb (is_attempt e)) l).


(** The client object was built from the configuration of the store,
    by a call of [redis.Redis] that the backend has seen. *)
Definition configured (w : world) : Prop :=
  redis_host (client (store w)) = host (store w)
  /\ redis_port (client (store w)) = port (store w)
  /\ redis_db (client (store w)) = db (store w)
  /\ socket_timeout (client (store w)) = timeout (store w)
  /\ socket_connect_timeout (client (store w)) = timeout (store w)
  /\ decode_responses (client (store w)) = true
  /\ (object_id (client (store w)) < next_id (redis w))%nat.

(** The commands among the events. *)
Definition commands (l : list event) : list command :=
  omap (fun e => match e with
                 | Attempt _ c _ => Some c
                 | Connect _ => None
                 end) l.


(** The connection works: the store retries at least once and no
    coming command fails. *)
Definition working (w : world) : Prop :=
  0 < retries (store w) /\ faults (redis w) = [].


(** The interests the server data holds for a client id: the parsed
    text of the key "i:" + id, the empty list when the key is absent or
    holds the empty text. *)
Definition interests_of (d : gmap string (string * Z)) (cid : pyval)
    : result pyval :=
  match d !! ("i:" ++ str_cid cid) with
  | Some (text, _) =>
      if truthy_str text then
        match json_loads text with
        | Some v => Ok v
        | None => Raise (ValueError "json")
        end
      else Ok (VList [])
  | None => Ok (VList [])
  end.

(** An authenticated [clients_interests] call whose arguments
    construct a request object with the client ids [ids]. *)
Record clients_interests_call (now_auth : datetime) (body : kwargs)
    (req : MethodRequest) (ids : list pyval) : Prop := {
  ci_request : MethodRequest_init body = Ok req;
  ci_auth : check_auth now_auth req = true;
  ci_method : method req = Some "clients_interests";
  ci_arguments :
    exists args o,
      arguments req = Some args
      /\ ClientsInterestsRequest_init args = Ok o
      /\ client_ids o = Some ids
}.


(** ** Notions used to state further properties of the request objects *)



(** What the fields of a constructed ClientsInterestsRequest satisfy. *)
Record valid_clients_interests (o : ClientsInterestsRequest) : Prop := {
  valid_client_ids :
    forall ids, client_ids o = Some ids ->
                ids <> [] /\ forallb isinstance_int ids = true;
  valid_date : forall s, date o = Some s -> strptime s <> None
}.


(** Whether the attribute named [k] of a MethodRequest is set (is not
    None). *)
Definition MethodRequest_has (req : MethodRequest) (k : string) : bool :=
  if String.eqb k "account" then is_Some_b (account req)
  else if String.eqb k "login" then is_Some_b (login req)
  else if String.eqb k "token" then is_Some_b (token req)
  else if String.eqb k "arguments" then is_Some_b (arguments req)
  else if String.eqb k "method" then is_Some_b (method req)
  else false.


(** ** Further sample data *)

(** A store whose first two commands fail, over a server that holds
    one key. *)
Definition retry_world : world :=
  Store_init "localhost" 6379 0 3 1
    {| data := {["key" := ("value", 0)]}; faults := [true; true];
       next_id := O; trace := [] |}.

(** A working store over a server that holds a cached score. *)
Definition cached_world : world :=
  Store_init "localhost" 6379 0 3 1
    {| data := {["uid:md5:79175002040" := ("3.0", 3600)]}; faults := [];
       next_id := O; trace := [] |}.

(** A working store over a server that holds the interests of
    client 1. *)
Definition interests_world : world :=
  Store_init "localhost" 6379 0 3 1
    {| data := {["i:1" := ("[]", 0)]}; faults := [];
       next_id := O; trace := [] |}.

Definition sample_interests_body : kwargs :=
  [("account", VStr "horns&hoofs"); ("login", VStr "h&f");
   ("method", VStr "clients_interests");
   ("token", VStr (sample_sha512 "horns&hoofsh&fOtus"));
   ("arguments", VDict [("client_ids", VList [VInt 1; VInt 2])])].

Definition sample_interests_request : MethodRequest :=
  {| account := Some "horns&hoofs"; login := Some "h&f";
     token := Some (sample_sha512 "horns&hoofsh&fOtus");
     arguments := Some [("client_ids", VList [VInt 1; VInt 2])];
     method := Some "clients_interests" |}.

Definition wrong_token_body : kwargs :=
  [("account", VStr "horns&hoofs"); ("login", VStr "h&f");
   ("method", VStr "online_score"); ("token", VStr "wrong_token");
   ("arguments", VDict [])].

(** * Properties *)

(** ** Authentication *)

Lemma expected_digest_admin now request :
  is_admin request = true ->
  expected_digest now request = sha512_hex (strftime_YmdH now ++ ADMIN_SALT).
Proof.
  unfold is_admin, expected_digest, ADMIN_LOGIN, ADMIN_SALT.
  destruct (login request) as [l|]; [|discriminate].
  intros ->. reflexivity.
Qed.

Lemma expected_digest_regular now request :
  is_admin request = false ->
  expected_digest now request =
  sha512_hex (or_empty (account request) ++ or_empty (login request) ++ SALT).
Proof.
  unfold is_admin, expected_digest, ADMIN_LOGIN, SALT, or_empty.
  destruct (login request) as [l|]; [|reflexivity].
  intros ->. reflexivity.
Qed.

(** C1: [check_auth] returns true if and only if the token of the
    request equals the expected hex SHA-512 digest: for the admin login
    the digest of the current hour, formatted YYYYMMDDHH, followed by
    the admin salt; for every other request the digest of
    (account or empty) + (login or empty) + salt. *)
Theorem check_auth_iff_expected_digest (now : datetime)
    (request : MethodRequest) :
  check_auth now request = true <->
  token request = Some (expected_digest now request).
Proof.
  unfold check_auth.
  destruct (is_admin request) eqn:Hadm.
  - rewrite (expected_digest_admin now request Hadm).
    destruct (token request) as [t|]; [|split; discriminate].
    rewrite String.eqb_eq. split; [intros ->; reflexivity|congruence].
  - rewrite (expected_digest_regular now request Hadm).
    destruct (token request) as [t|]; [|split; discriminate].
    rewrite String.eqb_eq. split; [intros ->; reflexivity|congruence].
Qed.

(** ** Decimal text *)

Lemma digit_cases (d : Z) :
  0 <= d < 10 ->
  d = 0 \/ d = 1 \/ d = 2 \/ d = 3 \/ d = 4 \/ d = 5 \/ d = 6 \/ d = 7
  \/ d = 8 \/ d = 9.
Proof. lia. Qed.

Lemma digit_char_val (d : Z) :
  0 <= d < 10 -> digit_val (digit_char d) = d /\ is_digit (digit_char d) = true.
Proof.
  intros H. destruct (digit_cases d H) as [->|[->|[->|[->|[->|[->|[->|[->|[->| ->]]]]]]]]];
    split; reflexivity.
Qed.

Lemma is_digit_val (c : ascii) : is_digit c = true -> 0 <= digit_val c < 10.
Proof.
  unfold is_digit, digit_val. rewrite andb_true_iff, !Z.leb_le. lia.
Qed.

Lemma digit_val_inj (c c' : ascii) : digit_val c = digit_val c' -> c = c'.
Proof.
  unfold digit_val. intros H.
  rewrite <- (ascii_nat_embedding c), <- (ascii_nat_embedding c').
  f_equal. lia.
Qed.

Lemma all_digits_app (s t : string) :
  all_digits (s ++ t) = all_digits s && all_digits t.
Proof.
  induction s as [|c s IH]; simpl; [reflexivity|].
  rewrite IH, andb_assoc. reflexivity.
Qed.

Lemma int_digits_app (s t : string) :
  forall acc, int_digits acc (s ++ t) = int_digits (int_digits acc s) t.
Proof.
  induction s as [|c s IH]; intros acc; simpl; [reflexivity|apply IH].
Qed.

(** The value of a digit string lies in the window of its length. *)
Lemma int_digits_bounds (s : string) :
  forall acc,
    all_digits s = true ->
    acc * 10 ^ Z.of_nat (String.length s) <= int_digits acc s
    < (acc + 1) * 10 ^ Z.of_nat (String.length s).
Proof.
  induction s as [|c s IH]; intros acc Hd.
  - simpl. lia.
  - simpl in Hd. apply andb_true_iff in Hd as [Hc Hs].
    apply is_digit_val in Hc.
    specialize (IH (10 * acc + digit_val c) Hs).
    cbn [int_digits String.length].
    rewrite Nat2Z.inj_succ, Z.pow_succ_r by lia.
    assert (0 < 10 ^ Z.of_nat (String.length s)) by (apply Z.pow_pos_nonneg; lia).
    nia.
Qed.

Lemma str_nat_aux_spec (fuel : nat) :
  forall n,
    fuel <> O ->
    0 <= n < 2 ^ Z.of_nat fuel ->
    exists c r,
      str_nat_aux fuel n = String c r
      /\ all_digits (String c r) = true
      /\ int_digits 0 (String c r) = n
      /\ (0 < n -> digit_val c <> 0).
Proof.
  induction fuel as [|f IH]; intros n Hf Hn; [congruence|].
  cbn [str_nat_aux]. destruct (n <? 10) eqn:Hlt.
  - apply Z.ltb_lt in Hlt.
    destruct (digit_char_val n ltac:(lia)) as [Hv Hd].
    exists (digit_char n), EmptyString. cbn [all_digits int_digits].
    rewrite Hd, Hv. repeat split; try reflexivity; lia.
  - apply Z.ltb_ge in Hlt.
    rewrite Nat2Z.inj_succ, Z.pow_succ_r in Hn by lia.
    assert (Hq : 1 <= n / 10 < 2 ^ Z.of_nat f).
    { split; [apply Z.div_le_lower_bound; lia|].
      apply Z.div_lt_upper_bound; lia. }
    destruct (IH (n / 10)) as (c & r & Hs & Hd & Hv & Hnz).
    { intros ->. simpl in Hq. lia. }
    { lia. }
    destruct (digit_char_val (n mod 10)) as [Hv' Hd'].
    { apply Z.mod_pos_bound; lia. }
    exists c, (r ++ String (digit_char (n mod 10)) EmptyString).
    rewrite Hs. split; [reflexivity|].
    change (String c (r ++ String (digit_char (n mod 10)) EmptyString))
      with (String c r ++ String (digit_char (n mod 10)) EmptyString).
    rewrite all_digits_app, int_digits_app, Hd, Hv.
    cbn [all_digits int_digits]. rewrite Hd', Hv'.
    repeat split; try reflexivity.
    + pose proof (Z.div_mod n 10). lia.
    + intros _. apply Hnz. lia.
Qed.

Lemma str_nat_spec (n : Z) :
  0 <= n ->
  exists c r,
    str_nat n = String c r
    /\ all_digits (String c r) = true
    /\ int_digits 0 (String c r) = n
    /\ (0 < n -> digit_val c <> 0).
Proof.
  intros Hn. unfold str_nat. apply str_nat_aux_spec; [discriminate|].
  split; [assumption|].
  rewrite Nat2Z.inj_succ, Z2Nat.id by apply Z.log2_nonneg.
  destruct (Z.eq_dec n 0) as [->|Hnz]; [reflexivity|].
  apply Z.log2_spec. lia.
Qed.

(** Reading back the text of a natural number gives the number. *)
Lemma int_of_str_str_nat (n : Z) : 0 <= n -> int_of_str (str_nat n) = n.
Proof.
  intros Hn. destruct (str_nat_spec n Hn) as (c & r & Hs & _ & Hv & _).
  unfold int_of_str. now rewrite Hs.
Qed.

Lemma int_digits_inj (s : string) :
  forall t a b,
    all_digits s = true -> all_digits t = true ->
    String.length s = String.length t ->
    0 <= a -> 0 <= b ->
    int_digits a s = int_digits b t ->
    a = b /\ s = t.
Proof.
  induction s as [|c s IH]; intros [|d t] a b Hs Ht Hlen Ha Hb Hv;
    try discriminate Hlen.
  - simpl in Hv. auto.
  - cbn [all_digits] in Hs, Ht.
    apply andb_true_iff in Hs as [Hc Hs]. apply andb_true_iff in Ht as [Hd Ht].
    apply is_digit_val in Hc, Hd. cbn [int_digits] in Hv.
    injection Hlen as Hlen.
    destruct (IH t (10 * a + digit_val c) (10 * b + digit_val d))
      as [Heq ->]; try assumption; try lia.
    assert (digit_val c = digit_val d) by lia.
    split; [lia|]. f_equal. now apply digit_val_inj.
Qed.

(** Digit strings without a leading zero that denote the same number
    have the same length. *)
Lemma digits_length_le (c c' : ascii) (r r' : string) :
  all_digits (String c r) = true -> all_digits (String c' r') = true ->
  digit_val c <> 0 ->
  int_digits 0 (String c r) = int_digits 0 (String c' r') ->
  (String.length r <= String.length r')%nat.
Proof.
  cbn [all_digits int_digits]. rewrite !andb_true_iff, Z.mul_0_r, !Z.add_0_l.
  intros [Hc Hr] [Hc' Hr'] Hnz Hv.
  apply is_digit_val in Hc, Hc'.
  pose proof (int_digits_bounds r (digit_val c) Hr) as Hb.
  pose proof (int_digits_bounds r' (digit_val c') Hr') as Hb'.
  rewrite Hv in Hb.
  destruct (le_lt_dec (String.length r) (String.length r')) as [|Hlt];
    [assumption|exfalso].
  assert (10 ^ Z.of_nat (S (String.length r')) <= 10 ^ Z.of_nat (String.length r))
    by (apply Z.pow_le_mono_r; lia).
  rewrite Nat2Z.inj_succ, Z.pow_succ_r in H by lia.
  assert (0 < 10 ^ Z.of_nat (String.length r')) by (apply Z.pow_pos_nonneg; lia).
  nia.
Qed.

(** Writing out the number a digit string denotes gives the string
    back, when the string has no leading zero. *)
Lemma str_int_int_of_str (s : string) :
  all_digits s = true ->
  (exists c r, s = String c r /\ digit_val c <> 0) ->
  str_int (int_of_str s) = s.
Proof.
  intros Hd (c & r & -> & Hnz). unfold int_of_str.
  pose proof Hd as Hd0. cbn [all_digits] in Hd0.
  apply andb_true_iff in Hd0 as [Hc Hr]. apply is_digit_val in Hc.
  pose proof (int_digits_bounds r (digit_val c) Hr) as Hb.
  assert (0 < 10 ^ Z.of_nat (String.length r)) by (apply Z.pow_pos_nonneg; lia).
  assert (Hv : int_digits 0 (String c r) = int_digits (digit_val c) r)
    by (cbn [int_digits]; f_equal; lia).
  assert (Hpos : 0 < int_digits 0 (String c r)) by (rewrite Hv; nia).
  unfold str_int. destruct (_ <? 0) eqn:Hneg; [apply Z.ltb_lt in Hneg; lia|].
  destruct (str_nat_spec (int_digits 0 (String c r)) ltac:(lia))
    as (c' & r' & Hs & Hd' & Hv' & Hnz').
  rewrite Hs. specialize (Hnz' Hpos).
  assert (Hlen : String.length r' = String.length r).
  { apply Nat.le_antisymm.
    - now apply (digits_length_le c' c r' r).
    - apply (digits_length_le c c' r r'); auto. }
  destruct (int_digits_inj (String c' r') (String c r) 0 0) as [_ Heq];
    auto; try lia.
  cbn [String.length]. now rewrite Hlen.
Qed.


(** ** PhoneField *)

Lemma phone_shape_of_range (n : Z) :
  phone_range n -> phone_shape_bad (str_int n) = false.
Proof.
  unfold phone_range. intros Hn. unfold str_int.
  destruct (n <? 0) eqn:Hneg; [apply Z.ltb_lt in Hneg; lia|].
  destruct (str_nat_spec n ltac:(lia)) as (c & r & Hs & Hd & Hv & Hnz).
  rewrite Hs. cbn [all_digits] in Hd. apply andb_true_iff in Hd as [Hc Hr].
  apply is_digit_val in Hc. specialize (Hnz ltac:(lia)).
  cbn [int_digits] in Hv. rewrite Z.mul_0_r, Z.add_0_l in Hv.
  pose proof (int_digits_bounds r (digit_val c) Hr) as Hb. rewrite Hv in Hb.
  set (k := String.length r) in *.
  assert (Hk : k = 10%nat).
  { destruct (Nat.lt_trichotomy k 10) as [Hlt|[Heq|Hgt]]; [|exact Heq|].
    - assert (10 ^ Z.of_nat k <= 10 ^ 9) by (apply Z.pow_le_mono_r; lia).
      assert (0 < 10 ^ Z.of_nat k) by (apply Z.pow_pos_nonneg; lia).
      change (10 ^ 9) with 1000000000 in *. nia.
    - assert (10 ^ 11 <= 10 ^ Z.of_nat k) by (apply Z.pow_le_mono_r; lia).
      change (10 ^ 11) with 100000000000 in *. nia. }
  rewrite Hk in Hb. change (10 ^ Z.of_nat 10) with 10000000000 in Hb.
  assert (Hc7 : c = "7"%char).
  { apply digit_val_inj. change (digit_val "7") with 7. lia. }
  subst c. unfold phone_shape_bad. cbn [String.length first_char].
  fold k. rewrite Hk. reflexivity.
Qed.

Lemma phone_range_of_shape (n : Z) :
  phone_shape_bad (str_int n) = false -> phone_range n.
Proof.
  unfold str_int, phone_shape_bad. rewrite orb_false_iff, !negb_false_iff.
  destruct (n <? 0) eqn:Hneg.
  { cbn [first_char]. intros [_ H]. discriminate H. }
  apply Z.ltb_ge in Hneg.
  destruct (str_nat_spec n Hneg) as (c & r & Hs & Hd & Hv & _).
  rewrite Hs. cbn [String.length first_char]. intros [Hlen Hc].
  apply Nat.eqb_eq in Hlen. apply Ascii.eqb_eq in Hc. subst c.
  cbn [all_digits] in Hd. apply andb_true_iff in Hd as [_ Hr].
  cbn [int_digits] in Hv. change (10 * 0 + digit_val "7") with 7 in Hv.
  pose proof (int_digits_bounds r 7 Hr) as Hb. rewrite Hv in Hb.
  assert (Hk : String.length r = 10%nat) by lia.
  rewrite Hk in Hb. change (10 ^ Z.of_nat 10) with 10000000000 in Hb.
  unfold phone_range. lia.
Qed.

Lemma PhoneField_validate_int (n : Z) :
  PhoneField_validate (VInt n)
  = if phone_shape_bad (str_int n) then Raise phone_error else Ok n.
Proof. reflexivity. Qed.

Lemma PhoneField_validate_str (s : string) :
  PhoneField_validate (VStr s)
  = if isdigit s then PhoneField_validate (VInt (int_of_str s))
    else Raise (ValueError "phone must be digits").
Proof. unfold PhoneField_validate. destruct (isdigit s); reflexivity. Qed.

Lemma PhoneField_int_ok_iff (n : Z) :
  PhoneField_validate (VInt n) = Ok n <-> phone_range n.
Proof.
  rewrite PhoneField_validate_int. split.
  - intros H. apply phone_range_of_shape.
    destruct (phone_shape_bad (str_int n)); [discriminate|reflexivity].
  - intros H. now rewrite (phone_shape_of_range n H).
Qed.

Lemma PhoneField_int_fail (n : Z) :
  ~ phone_range n -> PhoneField_validate (VInt n) = Raise phone_error.
Proof.
  intros H. rewrite PhoneField_validate_int.
  destruct (phone_shape_bad (str_int n)) eqn:Hb; [reflexivity|].
  now apply phone_range_of_shape in Hb.
Qed.

(** An 11-digit text that starts with 7 denotes a number in the range. *)
Lemma eleven_digits_range (s : string) :
  String.length s = 11%nat -> all_digits s = true ->
  first_char s = Some "7"%char -> phone_range (int_of_str s).
Proof.
  intros Hlen Hd Hc. destruct s as [|c r]; [discriminate|].
  cbn [first_char] in Hc. injection Hc as ->.
  cbn [all_digits] in Hd. apply andb_true_iff in Hd as [_ Hr].
  cbn [String.length] in Hlen.
  unfold int_of_str. cbn [int_digits].
  change (10 * 0 + digit_val "7") with 7.
  pose proof (int_digits_bounds r 7 Hr) as Hb.
  assert (Hk : String.length r = 10%nat) by lia.
  rewrite Hk in Hb. change (10 ^ Z.of_nat 10) with 10000000000 in Hb.
  unfold phone_range. lia.
Qed.

Lemma all_digits_isdigit (s : string) :
  s <> EmptyString -> all_digits s = true -> isdigit s = true.
Proof. destruct s; [congruence|intros _ H; exact H]. Qed.


(** C8, as the code has it: an 11-digit text that starts with 7 is accepted
    and yields the integer it denotes, whose own text is the given
    one. A digits-only text is accepted
    exactly when the integer it denotes lies between 70000000000 and
    79999999999, whatever its own length and first digit (leading zeros
    are dropped by the conversion); an integer is accepted exactly when
    it lies in that range; every other digits-only text or integer
    fails with the "11 digits" error (so does a bool), and a text that
    is not digits-only fails with the "digits" error. *)
Theorem PhoneField_validate_spec :
  (forall s,
      String.length s = 11%nat -> all_digits s = true ->
      first_char s = Some "7"%char ->
      PhoneField_validate (VStr s) = Ok (int_of_str s)
      /\ str_int (int_of_str s) = s)
  /\ (forall s,
         isdigit s = true ->
         (PhoneField_validate (VStr s) = Ok (int_of_str s)
          <-> phone_range (int_of_str s))
         /\ (~ phone_range (int_of_str s) ->
             PhoneField_validate (VStr s) = Raise phone_error))
  /\ (forall n,
         (PhoneField_validate (VInt n) = Ok n <-> phone_range n)
         /\ (~ phone_range n ->
             PhoneField_validate (VInt n) = Raise phone_error))
  /\ (forall s,
         isdigit s = false ->
         PhoneField_validate (VStr s)
         = Raise (ValueError "phone must be digits"))
  /\ (forall b, PhoneField_validate (VBool b) = Raise phone_error).
Proof.
  split; [|split; [|split; [|split]]].
  - intros s Hlen Hd Hc. split.
    + rewrite PhoneField_validate_str.
      rewrite all_digits_isdigit by (try assumption; intros ->; discriminate).
      apply PhoneField_int_ok_iff. now apply eleven_digits_range.
    + apply str_int_int_of_str; [assumption|].
      destruct s as [|c r]; [discriminate|].
      injection Hc as ->. exists "7"%char, r. split; [reflexivity|discriminate].
  - intros s Hd. rewrite PhoneField_validate_str, Hd. split.
    + apply PhoneField_int_ok_iff.
    + apply PhoneField_int_fail.
  - intros n. split; [apply PhoneField_int_ok_iff|apply PhoneField_int_fail].
  - intros s Hd. now rewrite PhoneField_validate_str, Hd.
  - intros []; reflexivity.
Qed.

(** ** EmailField *)

(** C9, as the code has it: validation succeeds exactly for a text that
    contains the character '@', or that is empty while the field is
    nullable (the default, and the declaration in OnlineScoreRequest).
    The empty text is rejected only by a field declared with
    nullable=False; for such a field validation succeeds exactly for a
    non-empty text that contains '@'. *)
Theorem EmailField_validate_iff (name : string) (nullable : bool)
    (value : pyval) (s : string) :
  (EmailField_validate name nullable value = Ok s
   <-> value = VStr s
       /\ (contains_char "@" s = true
           \/ (s = EmptyString /\ nullable = true)))
  /\ (EmailField_validate name false value = Ok s
      <-> value = VStr s /\ s <> EmptyString /\ contains_char "@" s = true).
Proof.
  assert (Hgen : forall nl,
    EmailField_validate name nl value = Ok s
    <-> value = VStr s
        /\ (contains_char "@" s = true \/ (s = EmptyString /\ nl = true))).
  { intros nl. unfold EmailField_validate, CharField_validate.
    destruct value as [| | | |t| |]; simpl;
      try (split; [discriminate|intros [H _]; discriminate H]).
    destruct nl, t as [|c t]; simpl.
    - split; [intros [= <-]; auto|intros [[= <-] _]; reflexivity].
    - destruct (Ascii.eqb c "@" || contains_char "@" t) eqn:Hat; simpl.
      + split; [intros [= <-]; simpl; rewrite Hat; auto
               |intros [[= <-] _]; reflexivity].
      + split; [discriminate|].
        intros [[= <-] [H|[H _]]]; simpl in H; congruence.
    - split; [discriminate|].
      intros [[= <-] [H|[_ H]]]; simpl in H; congruence.
    - destruct (Ascii.eqb c "@" || contains_char "@" t) eqn:Hat; simpl.
      + split; [intros [= <-]; simpl; rewrite Hat; auto
               |intros [[= <-] _]; reflexivity].
      + split; [discriminate|].
        intros [[= <-] [H|[H _]]]; simpl in H; congruence. }
  split; [apply Hgen|].
  rewrite Hgen. split.
  - intros [Hv [Hat|[_ H]]]; [|discriminate].
    repeat split; try assumption. intros ->. discriminate.
  - intros (Hv & _ & Hat). auto.
Qed.

(** ** BirthDayField *)

Lemma DateField_validate_parsed (s : string) (date : datetime) :
  strptime s = Some date -> DateField_validate (VStr s) = Ok s.
Proof. intros H. unfold DateField_validate. now rewrite H. Qed.

(** C7, as the code has it: for a text that parses as a day.month.year date,
    validation succeeds if and only if the parsed date (its midnight)
    is not earlier than the current moment minus 70 * 365 days; the
    bound is inclusive and there is no upper bound, so dates after the
    current moment are accepted. The clock is assumed late enough for
    the subtraction to stay in range. *)
Theorem BirthDayField_validate_iff (now : datetime) (s : string)
    (date : datetime) :
  strptime s = Some date ->
  70 * 365 < toordinal now ->
  (BirthDayField_validate now (VStr s) = Ok s
   <-> timestamp_us now - 70 * 365 * US_PER_DAY <= timestamp_us date)
  /\ (timestamp_us date < timestamp_us now - 70 * 365 * US_PER_DAY ->
      BirthDayField_validate now (VStr s)
      = Raise (ValueError "birthday too old")).
Proof.
  intros Hp Hnow. unfold BirthDayField_validate.
  rewrite (DateField_validate_parsed s date Hp). cbn [rbind]. rewrite Hp.
  unfold lt_minus_days.
  destruct (toordinal now - 70 * 365 <? 1) eqn:Hov;
    [apply Z.ltb_lt in Hov; lia|]. cbn [rbind].
  destruct (timestamp_us date <? timestamp_us now - 70 * 365 * US_PER_DAY)
    eqn:Hlt.
  - apply Z.ltb_lt in Hlt. split; [split; [discriminate|lia]|reflexivity].
  - apply Z.ltb_ge in Hlt. split; [split; [lia|reflexivity]|lia].
Qed.


(** ** Required fields *)

Lemma Field_set_required_None {T} (name : string) (nullable : bool)
    (validate : pyval -> result T) :
  Field_set name true nullable validate VNone
  = Raise (ValueError (name ++ " is required")).
Proof. reflexivity. Qed.

Lemma MethodRequest_fill_app (pre post : kwargs) :
  forall self,
    MethodRequest_fill self (pre ++ post)%list
    = do s <- MethodRequest_fill self pre; MethodRequest_fill s post.
Proof.
  induction pre as [|[k v] pre IH]; intros self; [reflexivity|].
  cbn [MethodRequest_fill app].
  destruct (negb (existsb (String.eqb k) allowed_fields)); [reflexivity|].
  destruct (MethodRequest_setattr self k v) as [self'|e]; [|reflexivity].
  cbn [rbind]. apply IH.
Qed.

Lemma ClientsInterestsRequest_fill_app (pre post : kwargs) :
  forall self,
    ClientsInterestsRequest_fill self (pre ++ post)%list
    = do s <- ClientsInterestsRequest_fill self pre;
      ClientsInterestsRequest_fill s post.
Proof.
  induction pre as [|[k v] pre IH]; intros self; [reflexivity|].
  cbn [ClientsInterestsRequest_fill app].
  destruct (ClientsInterestsRequest_setattr self k v) as [self'|e];
    [|reflexivity].
  cbn [rbind]. apply IH.
Qed.

Lemma MethodRequest_fill_required_None (self : MethodRequest) (k : string)
    (post : kwargs) :
  In k MethodRequest_required ->
  MethodRequest_fill self ((k, VNone) :: post)
  = Raise (ValueError (k ++ " is required")).
Proof.
  intros [<-|[<-|[<-|[<-|[]]]]]; reflexivity.
Qed.

Lemma ClientsInterestsRequest_fill_required_None
    (self : ClientsInterestsRequest) (k : string) (post : kwargs) :
  In k ClientsInterestsRequest_required ->
  ClientsInterestsRequest_fill self ((k, VNone) :: post)
  = Raise (ValueError (k ++ " is required")).
Proof.
  intros [<-|[]]; reflexivity.
Qed.

(** C2, as the code has it: for each of the three request classes, when the
    input mapping supplies a field declared required with the absent
    value (None), construction fails; the error is that field's
    "required" error whenever the keys before it are all accepted
    (construction stops at the first error). *)
Theorem required_field_None_fails (now : datetime) (c : request_class)
    (k : string) (pre post : kwargs) :
  In k (required_fields c) ->
  is_ok (construct now c (pre ++ (k, VNone) :: post)%list) = false
  /\ (is_ok (construct now c pre) = true ->
      construct now c (pre ++ (k, VNone) :: post)%list
      = Raise (ValueError (k ++ " is required"))).
Proof.
  intros Hk. destruct c; cbn [required_fields construct] in *.
  - unfold MethodRequest_init. rewrite MethodRequest_fill_app.
    destruct (MethodRequest_fill MethodRequest_empty pre) as [s|e];
      cbn [rbind is_ok]; [|split; [reflexivity|discriminate]].
    rewrite (MethodRequest_fill_required_None s k post Hk).
    split; reflexivity.
  - destruct Hk.
  - unfold ClientsInterestsRequest_init.
    rewrite ClientsInterestsRequest_fill_app.
    destruct (ClientsInterestsRequest_fill _ pre) as [s|e];
      cbn [rbind is_ok]; [|split; [reflexivity|discriminate]].
    rewrite (ClientsInterestsRequest_fill_required_None s k post Hk).
    split; reflexivity.
Qed.


(** ** The store: retries *)

Lemma attempts_cons (e : event) (l : list event) :
  attempts (e :: l) = ((if is_attempt e then 1 else 0) + attempts l)%nat.
Proof.
  unfold attempts. destruct e; reflexivity.
Qed.

Lemma events_since_app (w w' : world) (l : list event) :
  trace (redis w') = (trace (redis w) ++ l)%list -> events_since w w' = l.
Proof. unfold events_since. intros ->. apply drop_app_length. Qed.

Lemma attempts_nil : attempts [] = O.
Proof. reflexivity. Qed.

Ltac count_attempts :=
  rewrite ?attempts_cons, ?attempts_nil in *; cbn [is_attempt] in *; lia.

Lemma retry_post_nil (c : Redis) (cmd : command) (k : nat) (w : world) :
  retry_post c cmd k w w [].
Proof.
  constructor.
  - now rewrite app_nil_r.
  - constructor.
  - count_attempts.
  - reflexivity.
  - reflexivity.
  - intros H. count_attempts.
  - lia.
  - intros id cm f [].
Qed.

Lemma retry_post_single (c : Redis) (cmd : command) (k : nat) (w w' : world)
    (failed : bool) :
  trace (redis w') = (trace (redis w) ++ [Attempt (object_id c) cmd failed])%list ->
  store w' = store w ->
  next_id (redis w') = next_id (redis w) ->
  retry_post c cmd (S k) w w' [Attempt (object_id c) cmd failed].
Proof.
  intros Ht Hs Hn. constructor.
  - exact Ht.
  - constructor.
  - count_attempts.
  - now rewrite Hs.
  - intros _. exact Hs.
  - intros H. count_attempts.
  - lia.
  - intros id cm f [[= <- <- <-]|[]]. auto.
Qed.

Lemma rebuilt_between_attempts (l : list event) :
  rebuilt_between l -> l <> [] -> (1 <= attempts l)%nat.
Proof.
  intros H Hne. destruct H; [congruence| |]; count_attempts.
Qed.

Lemma retry_post_step (c : Redis) (cmd : command) (k : nat) (w w1 w' : world)
    (l : list event) :
  trace (redis w1) = (trace (redis w) ++ [Attempt (object_id c) cmd true])%list ->
  store w1 = store w ->
  next_id (redis w1) = next_id (redis w) ->
  l <> [] ->
  retry_post c cmd k (_connect w1) w' l ->
  retry_post c cmd (S k) w w'
    (Attempt (object_id c) cmd true :: Connect (next_id (redis w)) :: l).
Proof.
  intros Ht Hs Hn Hne [Ht' Hsh Hb Hr Hsame Hfresh Hnext Hbc].
  pose proof (rebuilt_between_attempts l Hsh Hne) as Hone.
  simpl in Ht', Hr, Hfresh, Hnext, Hsame.
  constructor.
  - rewrite Ht', Ht, Hn. rewrite <- !app_assoc. reflexivity.
  - now constructor.
  - count_attempts.
  - rewrite Hr, Hs. reflexivity.
  - intros H. count_attempts.
  - intros _. destruct (le_lt_dec (attempts l) 1) as [Hle|Hgt].
    + rewrite (Hsame Hle). simpl. lia.
    + specialize (Hfresh Hgt). lia.
  - lia.
  - intros id cm f [[= <- <- <-]|[[=]|Hin]]; [auto|]. eapply Hbc, Hin.
Qed.

Lemma redis_call_facts {A} (c : Redis) (cmd : command)
    (reply : gmap string (string * Z) -> A) (w : world) :
  let r := fst (redis_call c cmd reply w) in
  let w1 := snd (redis_call c cmd reply w) in
  store w1 = store w
  /\ trace (redis w1)
     = (trace (redis w) ++ [Attempt (object_id c) cmd (next_fault (redis w))])%list
  /\ next_id (redis w1) = next_id (redis w)
  /\ faults (redis w1) = tl (faults (redis w))
  /\ (next_fault (redis w) = true ->
      r = Raise ConnectionError /\ data (redis w1) = data (redis w))
  /\ (next_fault (redis w) = false ->
      r = Ok (reply (data (redis w)))
      /\ data (redis w1) = run_command cmd (data (redis w))).
Proof.
  unfold redis_call. cbn.
  destruct (next_fault (redis w)); repeat split; try reflexivity;
    discriminate.
Qed.

Lemma retry_loop_redis {A} (c : Redis) (cmd : command)
    (reply : gmap string (string * Z) -> A) (k : nat) :
  forall a w,
    Z.of_nat k = retries (store w) - a ->
    exists l,
      retry_post c cmd k w (snd (retry_loop (redis_call c cmd reply) k a w)) l
      /\ (k <> O -> l <> [])
      /\ (forall e, fst (retry_loop (redis_call c cmd reply) k a w) = Raise e ->
                    e = ConnectionError).
Proof.
  induction k as [|k IH]; intros a w Hk.
  - exists []. split; [apply retry_post_nil|]. split; [congruence|].
    simpl. intros e [= <-]. reflexivity.
  - cbn [retry_loop].
    destruct (redis_call_facts c cmd reply w)
      as (Hs & Ht & Hn & _ & Hfail & Hgood).
    destruct (redis_call c cmd reply w) as [r w1]. cbn [fst snd] in *.
    destruct (next_fault (redis w)) eqn:Hf.
    2:{ destruct (Hgood eq_refl) as [-> _].
        exists [Attempt (object_id c) cmd false].
        split; [|split; [discriminate|discriminate]].
        now apply retry_post_single. }
    destruct (Hfail eq_refl) as [-> _]. rewrite Hs.
    destruct (a =? retries (store w) - 1) eqn:Ha.
    { exists [Attempt (object_id c) cmd true].
      split; [|split; [discriminate|intros e [= <-]; reflexivity]].
      now apply retry_post_single. }
    apply Z.eqb_neq in Ha.
    destruct (IH (a + 1) (_connect w1)) as (l & Hp & Hne & He).
    { simpl. rewrite Hs. lia. }
    exists (Attempt (object_id c) cmd true :: Connect (next_id (redis w)) :: l).
    split; [|split; [discriminate|exact He]].
    eapply retry_post_step; [exact Ht|exact Hs|exact Hn| |exact Hp].
    apply Hne. intros ->. simpl in Hk. lia.
Qed.


Lemma all_fail_cons (k : nat) (fs : list bool) :
  all_fail (S k) fs -> exists fs', fs = true :: fs' /\ all_fail k fs'.
Proof.
  unfold all_fail. destruct fs as [|b fs']; simpl; [discriminate|].
  intros [= -> H]. eauto.
Qed.

Lemma retry_loop_all_fail {A} (c : Redis) (cmd : command)
    (reply : gmap string (string * Z) -> A) (k : nat) :
  forall a w,
    Z.of_nat k = retries (store w) - a ->
    all_fail k (faults (redis w)) ->
    exists l,
      trace (redis (snd (retry_loop (redis_call c cmd reply) k a w)))
      = (trace (redis w) ++ l)%list
      /\ attempts l = k
      /\ fst (retry_loop (redis_call c cmd reply) k a w) = Raise ConnectionError
      /\ data (redis (snd (retry_loop (redis_call c cmd reply) k a w)))
         = data (redis w).
Proof.
  induction k as [|k IH]; intros a w Hk Hall.
  - exists []. simpl. rewrite app_nil_r. auto.
  - cbn [retry_loop].
    destruct (all_fail_cons k _ Hall) as (fs' & Hfs & Hall').
    destruct (redis_call_facts c cmd reply w)
      as (Hs & Ht & Hn & Htl & Hfail & _).
    assert (Hf : next_fault (redis w) = true)
      by (unfold next_fault; now rewrite Hfs).
    destruct (redis_call c cmd reply w) as [r w1]. cbn [fst snd] in *.
    destruct (Hfail Hf) as [-> Hd]. rewrite Hs, Hf in *.
    destruct (a =? retries (store w) - 1) eqn:Ha.
    + exists [Attempt (object_id c) cmd true]. cbn [fst snd].
      apply Z.eqb_eq in Ha. repeat split; try assumption.
      assert (k = O) as -> by lia. reflexivity.
    + destruct (IH (a + 1) (_connect w1)) as (l & Ht' & Hat & Hr & Hd').
      { simpl. rewrite Hs. lia. }
      { simpl. rewrite Htl, Hfs. exact Hall'. }
      exists (Attempt (object_id c) cmd true :: Connect (next_id (redis w1)) :: l).
      repeat split.
      * rewrite Ht'. simpl. rewrite Ht, <- !app_assoc. reflexivity.
      * rewrite !attempts_cons, Hat. reflexivity.
      * exact Hr.
      * rewrite Hd'. simpl. exact Hd.
Qed.

Lemma retry_loop_first_ok {A} (c : Redis) (cmd : command)
    (reply : gmap string (string * Z) -> A) (k : nat) (a : Z) (w : world) :
  next_fault (redis w) = false ->
  retry_loop (redis_call c cmd reply) (S k) a w = redis_call c cmd reply w.
Proof.
  intros Hf. cbn [retry_loop].
  destruct (redis_call_facts c cmd reply w) as (_ & _ & _ & _ & _ & Hgood).
  destruct (redis_call c cmd reply w) as [r w1]. cbn [fst snd] in *.
  destruct (Hgood Hf) as [-> _]. reflexivity.
Qed.

Lemma execute_with_retry_post {A} (c : Redis) (cmd : command)
    (reply : gmap string (string * Z) -> A) (w : world) :
  exists l,
    retry_post c cmd (Z.to_nat (retries (store w))) w
      (snd (_execute_with_retry (redis_call c cmd reply) w)) l
    /\ (forall e, fst (_execute_with_retry (redis_call c cmd reply) w) = Raise e ->
                  e = ConnectionError).
Proof.
  unfold _execute_with_retry.
  destruct (Z_le_gt_dec (retries (store w)) 0) as [Hle|Hgt].
  - assert (Z.to_nat (retries (store w)) = O) as -> by lia.
    exists []. split; [apply retry_post_nil|].
    simpl. intros e [= <-]. reflexivity.
  - destruct (retry_loop_redis c cmd reply (Z.to_nat (retries (store w))) 0 w)
      as (l & Hp & _ & He); [lia|].
    exists l. auto.
Qed.

Lemma execute_with_retry_all_fail {A} (c : Redis) (cmd : command)
    (reply : gmap string (string * Z) -> A) (w : world) :
  all_fail (Z.to_nat (retries (store w))) (faults (redis w)) ->
  attempts (events_since w (snd (_execute_with_retry (redis_call c cmd reply) w)))
  = Z.to_nat (retries (store w))
  /\ fst (_execute_with_retry (redis_call c cmd reply) w) = Raise ConnectionError
  /\ data (redis (snd (_execute_with_retry (redis_call c cmd reply) w)))
     = data (redis w).
Proof.
  intros Hall. unfold _execute_with_retry.
  destruct (Z_le_gt_dec (retries (store w)) 0) as [Hle|Hgt].
  - assert (Z.to_nat (retries (store w)) = O) as -> by lia.
    simpl. unfold events_since. rewrite drop_all. auto.
  - destruct (retry_loop_all_fail c cmd reply (Z.to_nat (retries (store w))) 0 w)
      as (l & Ht & Hat & Hr & Hd); [lia|exact Hall|].
    rewrite (events_since_app _ _ l Ht). auto.
Qed.

(** The part of an operation that talks to the server. *)
Lemma perform_inner (op : operation) (w : world) :
  exists (A : Type) (cmd : command) (reply : gmap string (string * Z) -> A),
    let inner :=
      _execute_with_retry (redis_call (client (store w)) cmd reply) w in
    snd (perform op w) = snd inner
    /\ (forall e, fst inner = Raise e -> e = ConnectionError)
    /\ (fst inner = Raise ConnectionError ->
        fst (perform op w)
        = match op with Get _ => Raise ConnectionError | _ => Ok None end)
    /\ (is_ok (fst inner) = true -> is_ok (fst (perform op w)) = true).
Proof.
  destruct op as [key|key|key value ttl].
  - exists (option string), (GET key), (fun d => fst <$> d !! key).
    cbn zeta. pose proof (execute_with_retry_post (client (store w)) (GET key)
                  (fun d => fst <$> d !! key) w) as (l & _ & He).
    unfold perform, Store_get, Redis_get. auto.
  - exists (option string), (GET key), (fun d => fst <$> d !! key).
    cbn zeta. pose proof (execute_with_retry_post (client (store w)) (GET key)
                  (fun d => fst <$> d !! key) w) as (l & _ & He).
    unfold perform, cache_get, except_ConnectionError, Redis_get.
    destruct (_execute_with_retry _ w) as [[v|e] w1]; cbn [fst snd] in *.
    + repeat split; auto; discriminate.
    + rewrite (He e eq_refl). cbn. repeat split; auto; intros; congruence.
  - exists bool, (SETEX key ttl (repr_float value)), (fun _ => true).
    cbn zeta. pose proof (execute_with_retry_post (client (store w))
                  (SETEX key ttl (repr_float value)) (fun _ => true) w)
      as (l & _ & He).
    unfold perform, cache_set, except_ConnectionError, bind, Redis_setex.
    destruct (_execute_with_retry _ w) as [[v|e] w1]; cbn [fst snd] in *.
    + cbn. repeat split; auto; discriminate.
    + rewrite (He e eq_refl). cbn. repeat split; auto; intros; congruence.
Qed.

Lemma cache_operation_returns (op : operation) (w : world) :
  match op with
  | Get _ => True
  | CacheGet _ | CacheSet _ _ _ => is_ok (fst (perform op w)) = true
  end.
Proof.
  destruct (perform_inner op w) as (A & cmd & reply & _ & He & Hraise & Hok).
  cbn zeta in *.
  destruct op; [exact I| |];
    (destruct (fst (_execute_with_retry _ w)) as [v|e] eqn:Hr;
     [apply Hok; reflexivity
     |rewrite Hraise by (now rewrite (He e eq_refl)); reflexivity]).
Qed.

(** C4: every operation of the store makes at most [retries] attempts,
    and between two attempts (the first of which failed) a new client
    object replaces [self.client]. When every attempt meets a
    connection error the operation has made exactly [retries] attempts,
    the data is unchanged, [get] raises the connection error while
    [cache_get] returns None and [cache_set] returns normally with the
    write dropped. The two cache operations never raise, whatever the
    state of the backend. *)
Theorem store_retry_contract (op : operation) (w : world) :
  let n := Z.to_nat (retries (store w)) in
  let r := fst (perform op w) in
  let w' := snd (perform op w) in
  (attempts (events_since w w') <= n)%nat
  /\ rebuilt_between (events_since w w')
  /\ ((1 < attempts (events_since w w'))%nat ->
      (next_id (redis w) <= object_id (client (store w')))%nat)
  /\ (all_fail n (faults (redis w)) ->
      attempts (events_since w w') = n
      /\ data (redis w') = data (redis w)
      /\ r = match op with Get _ => Raise ConnectionError | _ => Ok None end)
  /\ match op with
     | Get _ => True
     | CacheGet _ | CacheSet _ _ _ => is_ok r = true
     end.
Proof.
  cbn zeta.
  destruct (perform_inner op w) as (A & cmd & reply & Hw & He & Hraise & Hok).
  cbn zeta in *. rewrite Hw.
  destruct (execute_with_retry_post (client (store w)) cmd reply w)
    as (l & [Ht Hs Hb _ _ Hfresh _ _] & _).
  rewrite (events_since_app _ _ l Ht).
  split; [exact Hb|]. split; [exact Hs|]. split; [exact Hfresh|]. split.
  - intros Hall.
    destruct (execute_with_retry_all_fail (client (store w)) cmd reply w Hall)
      as (Hat & Hr & Hd).
    rewrite (events_since_app _ _ l Ht) in Hat. auto.
  - apply cache_operation_returns.
Qed.

(** The attempts of one operation all go through the client object
    that [self.client] held when the operation began: the bound method
    passed to [_execute_with_retry] is not rebound after [_connect]. *)
Lemma retry_attempts_use_bound_client (op : operation) (w : world) :
  forall id cm failed,
    In (Attempt id cm failed) (events_since w (snd (perform op w))) ->
    id = object_id (client (store w)).
Proof.
  intros id cm failed Hin.
  destruct (perform_inner op w) as (A & cmd & reply & Hw & _).
  cbn zeta in Hw. rewrite Hw in Hin.
  destruct (execute_with_retry_post (client (store w)) cmd reply w)
    as (l & [Ht _ _ _ _ _ _ Hbc] & _).
  rewrite (events_since_app _ _ l Ht) in Hin.
  now destruct (Hbc id cm failed Hin).
Qed.


(** ** Scoring *)

Lemma compute_score_spec (phone : option Z) (email birthday : option string)
    (gender : option pyval) (first_name last_name : option string) :
  compute_score phone email birthday gender first_name last_name
  = spec_score (truthy_opt_int phone) (truthy_opt_str email)
      (truthy_opt_str birthday) (is_Some_b gender)
      (truthy_opt_str first_name) (truthy_opt_str last_name).
Proof.
  unfold compute_score, spec_score.
  destruct (truthy_opt_int phone), (truthy_opt_str email),
    (truthy_opt_str birthday), (is_Some_b gender),
    (truthy_opt_str first_name), (truthy_opt_str last_name); reflexivity.
Qed.

Lemma spec_score_le_5 (a b c d e f : bool) :
  PrimFloat.leb (spec_score a b c d e f) 5 = true.
Proof. destruct a, b, c, d, e, f; reflexivity. Qed.

Lemma cache_get_returns (key : string) (w : world) :
  exists v, fst (cache_get key w) = Ok v.
Proof.
  pose proof (cache_operation_returns (CacheGet key) w) as H.
  cbn [perform] in H. destruct (fst (cache_get key w)) as [v|e]; [eauto|].
  discriminate H.
Qed.

Lemma cache_set_returns (key : string) (value : float) (ttl : Z) (w : world) :
  fst (cache_set key value ttl w) = Ok tt.
Proof.
  pose proof (cache_operation_returns (CacheSet key value ttl) w) as H.
  cbn [perform] in H. unfold bind in H.
  destruct (cache_set key value ttl w) as [[[]|e] w1]; [reflexivity|].
  discriminate H.
Qed.

Lemma cache_set_stores (key : string) (value : float) (ttl : Z) (w : world) :
  0 < retries (store w) ->
  next_fault (redis w) = false ->
  data (redis (snd (cache_set key value ttl w))) !! key
  = Some (repr_float value, ttl).
Proof.
  intros Hr Hf. unfold cache_set, except_ConnectionError, bind,
    _execute_with_retry, Redis_setex.
  destruct (Z.to_nat (retries (store w))) as [|k] eqn:Hk; [lia|].
  rewrite retry_loop_first_ok by exact Hf.
  destruct (redis_call_facts (client (store w))
              (SETEX key ttl (repr_float value)) (fun _ => true) w)
    as (_ & _ & _ & _ & _ & Hgood).
  destruct (redis_call _ _ _ w) as [r w1]. cbn [fst snd] in *.
  destruct (Hgood Hf) as [-> Hd]. cbn. rewrite Hd. cbn.
  apply lookup_insert_eq.
Qed.

Lemma get_score_miss (w : world) (phone : option Z)
    (email birthday : option string) (gender : option pyval)
    (first_name last_name : option string) (key : string) :
  cache_key phone birthday first_name last_name = Ok key ->
  fst (cache_get key w) = Ok None ->
  get_score phone email birthday gender first_name last_name w
  = (Ok (compute_score phone email birthday gender first_name last_name),
     snd (cache_set key
            (compute_score phone email birthday gender first_name last_name)
            (60 * 60) (snd (cache_get key w)))).
Proof.
  intros Hkey Hmiss. unfold get_score. rewrite Hkey. unfold bind.
  destruct (cache_get key w) as [r w1]. cbn [fst snd] in *. subst r.
  pose proof (cache_set_returns key
    (compute_score phone email birthday gender first_name last_name)
    (60 * 60) w1) as Hset.
  destruct (cache_set key _ (60 * 60) w1) as [r2 w2]. cbn [fst snd] in *.
  subst r2. reflexivity.
Qed.

(** C5: on a cache miss [get_score] returns exactly the sum of 1.5 for
    a phone, 1.5 for an email, 1.5 for a birthday together with a
    gender, and 0.5 for a first name together with a last name (present
    meaning truthy, and not None for the gender), which is at most 5.0;
    it hands that value to [cache_set] under the key "uid:" + md5 of the
    identity fields with a time-to-live of 3600 seconds, so that the
    value is stored when the connection works, and it returns the value
    whether or not the write goes through. *)
Theorem get_score_cache_miss (w : world) (phone : option Z)
    (email birthday : option string) (gender : option pyval)
    (first_name last_name : option string) (key : string) :
  cache_key phone birthday first_name last_name = Ok key ->
  fst (cache_get key w) = Ok None ->
  let score :=
    spec_score (truthy_opt_int phone) (truthy_opt_str email)
      (truthy_opt_str birthday) (is_Some_b gender)
      (truthy_opt_str first_name) (truthy_opt_str last_name) in
  let w1 := snd (cache_get key w) in
  let out := get_score phone email birthday gender first_name last_name w in
  fst out = Ok score
  /\ PrimFloat.leb score 5 = true
  /\ (exists text, key = "uid:" ++ md5_hex text)
  /\ snd out = snd (cache_set key score 3600 w1)
  /\ (0 < retries (store w1) -> next_fault (redis w1) = false ->
      data (redis (snd out)) !! key = Some (repr_float score, 3600)).
Proof.
  intros Hkey Hmiss. cbn zeta.
  rewrite (get_score_miss w _ _ _ _ _ _ key Hkey Hmiss).
  rewrite compute_score_spec. cbn [fst snd].
  split; [reflexivity|]. split; [apply spec_score_le_5|].
  split.
  { unfold cache_key in Hkey.
    destruct (match birthday with Some _ => _ | None => _ end) as [p|e];
      cbn [rbind] in Hkey; [|discriminate].
    injection Hkey as <-. eauto. }
  split; [reflexivity|].
  intros Hr Hf. change (60 * 60) with 3600. now apply cache_set_stores.
Qed.


(** ** The dispatcher: online_score *)

Lemma filled_iff (v : pyval) : filled v = true <-> present_nonempty v.
Proof.
  unfold filled, present_nonempty.
  destruct v as [| | | |s| |]; try destruct s; simpl;
    split; try discriminate; try (intros [H1 H2]; congruence);
    intros _; split; discriminate.
Qed.

Lemma any_pair_filled_iff (o : OnlineScoreRequest) :
  any_pair_filled o = true <-> pair_rule o.
Proof.
  unfold any_pair_filled, pair_rule, pairs. cbn [existsb forallb].
  rewrite !andb_true_r, orb_false_r.
  rewrite !orb_true_iff, !andb_true_iff, !filled_iff.
  tauto.
Qed.

Lemma Field_set_Some {T} (name : string) (required nullable : bool)
    (validate : pyval -> result T) (value : pyval) (x : T) :
  Field_set name required nullable validate value = Ok (Some x) ->
  validate value = Ok x.
Proof.
  unfold Field_set.
  destruct (is_None value && required); [discriminate|].
  destruct (is_None value && negb nullable); [discriminate|].
  destruct (negb (is_None value)); [|discriminate].
  destruct (validate value) as [y|e]; cbn [rbind]; congruence.
Qed.

Lemma BirthDayField_validate_parses (now : datetime) (value : pyval)
    (s : string) :
  BirthDayField_validate now value = Ok s -> strptime s <> None.
Proof.
  unfold BirthDayField_validate, DateField_validate.
  destruct value as [| | | |t| |]; cbn [rbind]; try discriminate.
  destruct (strptime t) as [d|] eqn:Hp; cbn [rbind]; [|discriminate].
  rewrite Hp. destruct (lt_minus_days d now (70 * 365)) as [[|]|e];
    cbn [rbind]; try discriminate.
  intros [= <-]. congruence.
Qed.

Lemma OnlineScoreRequest_setattr_parses (now : datetime)
    (self o : OnlineScoreRequest) (key : string) (value : pyval) :
  birthday_parses self ->
  OnlineScoreRequest_setattr now self key value = Ok o ->
  birthday_parses o.
Proof.
  intros Hinv. unfold OnlineScoreRequest_setattr.
  repeat match goal with
         | |- context [String.eqb key ?f] => destruct (String.eqb key f)
         end;
    try (destruct (Field_set _ _ _ _ value) as [v|e] eqn:Hset;
         cbn [rbind]; [|discriminate]);
    intros [= <-]; try exact Hinv.
  intros b Hb. cbn [birthday] in Hb. subst v.
  apply Field_set_Some in Hset.
  now apply BirthDayField_validate_parses in Hset.
Qed.

Lemma OnlineScoreRequest_fill_parses (now : datetime) (kw : kwargs) :
  forall self o,
    birthday_parses self ->
    OnlineScoreRequest_fill now self kw = Ok o ->
    birthday_parses o.
Proof.
  induction kw as [|[key value] kw IH]; intros self o Hinv.
  - intros [= <-]. exact Hinv.
  - cbn [OnlineScoreRequest_fill].
    destruct (OnlineScoreRequest_setattr now self key value) as [s|e] eqn:Hs;
      cbn [rbind]; [|discriminate].
    apply IH. eapply OnlineScoreRequest_setattr_parses; eassumption.
Qed.

Lemma OnlineScoreRequest_init_parses (now : datetime) (kw : kwargs)
    (o : OnlineScoreRequest) :
  OnlineScoreRequest_init now kw = Ok o -> birthday_parses o.
Proof.
  apply OnlineScoreRequest_fill_parses. intros b Hb. discriminate Hb.
Qed.

Lemma cache_key_defined (phone : option Z)
    (birthday first_name last_name : option string) :
  (forall b, birthday = Some b -> strptime b <> None) ->
  exists key, cache_key phone birthday first_name last_name = Ok key.
Proof.
  intros Hp. unfold cache_key.
  destruct birthday as [b|]; cbn [rbind]; [|eauto].
  destruct (truthy_str b); cbn [rbind]; [|eauto].
  destruct (strptime b) as [d|] eqn:Hd; cbn [rbind]; [eauto|].
  now destruct (Hp b eq_refl).
Qed.

Lemma get_score_outcome (w : world) (phone : option Z)
    (email birthday : option string) (gender : option pyval)
    (first_name last_name : option string) :
  (forall b, birthday = Some b -> strptime b <> None) ->
  (exists x,
      fst (get_score phone email birthday gender first_name last_name w)
      = Ok x)
  \/ (fst (get_score phone email birthday gender first_name last_name w)
      = Raise float_error
      /\ exists key text,
           fst (cache_get key w) = Ok (Some text)
           /\ float_of_str text = None).
Proof.
  intros Hp.
  destruct (cache_key_defined phone birthday first_name last_name Hp)
    as [key Hkey].
  destruct (cache_get_returns key w) as [[text|] Hget].
  - unfold get_score. rewrite Hkey. unfold bind.
    destruct (cache_get key w) as [r w1] eqn:Hcg. cbn [fst] in Hget. subst r.
    destruct (float_of_str text) as [x|] eqn:Hx.
    + left. exists x. reflexivity.
    + right. split; [reflexivity|]. exists key, text.
      rewrite Hcg. auto.
  - left. rewrite (get_score_miss w _ _ _ _ _ _ key Hkey Hget). eauto.
Qed.

(** The dispatcher on an authenticated [online_score] call. *)
Lemma method_handler_online_score (now_auth now_args : datetime)
    (body : kwargs) (req : MethodRequest) (o : OnlineScoreRequest)
    (ctx : context) (w : world) :
  online_score_call now_auth now_args body req o ->
  exists ctx',
    method_handler now_auth now_args body ctx w
    = if negb (any_pair_filled o) then
        {| returned := Ok (pair_rule_message, INVALID_REQUEST);
           ctx_after := ctx; world_after := w |}
      else if is_admin req then
        {| returned := score_response (VInt 42); ctx_after := ctx';
           world_after := w |}
      else
        {| returned :=
             do score <- fst (get_score (phone o) (email o) (birthday o)
                                (gender o) (first_name o) (last_name o) w);
             score_response (VFloat score);
           ctx_after := ctx';
           world_after :=
             snd (get_score (phone o) (email o) (birthday o) (gender o)
                    (first_name o) (last_name o) w) |}.
Proof.
  intros [Hreq Hauth Hm (args & Hargs & Ho)].
  exists (<["has" := VList (map VStr (has_keys args))]> ctx).
  unfold method_handler. rewrite Hreq, Hauth, Hm, Hargs, Ho.
  cbn [negb some_and]. change (String.eqb "online_score" "online_score") with true.
  cbv iota.
  destruct (negb (any_pair_filled o)); [reflexivity|].
  destruct (is_admin req); [reflexivity|].
  destruct (get_score _ _ _ _ _ _ w) as [r w']. reflexivity.
Qed.

(** C3: on an authenticated [online_score] call whose arguments
    construct a request object, the dispatcher goes on to the scoring
    step (and returns OK with a score, or lets the error of reading a
    cached text as a number escape) if and only if one of the pairs
    (phone, email), (first_name, last_name), (gender, birthday) has
    both members neither absent nor empty; otherwise it returns
    INVALID_REQUEST with the fixed message and leaves the store alone.
    When the cached texts read as numbers the scoring step always ends
    with OK and a score. *)
Theorem online_score_pair_rule (now_auth now_args : datetime)
    (body : kwargs) (req : MethodRequest) (o : OnlineScoreRequest)
    (ctx : context) (w : world) :
  online_score_call now_auth now_args body req o ->
  let out := method_handler now_auth now_args body ctx w in
  (((exists score, returned out = score_response score)
    \/ returned out = Raise float_error)
   <-> pair_rule o)
  /\ (~ pair_rule o ->
      returned out = Ok (pair_rule_message, INVALID_REQUEST)
      /\ world_after out = w)
  /\ (pair_rule o -> cache_parses w ->
      exists score, returned out = score_response score).
Proof.
  intros Hcall. cbn zeta.
  destruct (method_handler_online_score _ _ _ _ _ ctx w Hcall) as [ctx' ->].
  pose proof (any_pair_filled_iff o) as Hiff.
  assert (Hparse : forall b, birthday o = Some b -> strptime b <> None).
  { destruct Hcall as [_ _ _ (args & _ & Ho)].
    exact (OnlineScoreRequest_init_parses _ _ _ Ho). }
  destruct (any_pair_filled o) eqn:Hany; cbn [negb].
  - assert (Hrule : pair_rule o) by (now apply Hiff).
    destruct (is_admin req); cbn [returned world_after].
    + split; [split; [intros _; exact Hrule|intros _; left; eauto]|].
      split; [intros H; now destruct (H Hrule)|intros _ _; eauto].
    + destruct (get_score_outcome w (phone o) (email o) (birthday o)
                  (gender o) (first_name o) (last_name o) Hparse)
        as [[x Hx]|[Hx (key & text & Hget & Hnone)]];
        rewrite Hx; cbn [rbind].
      * split; [split; [intros _; exact Hrule|intros _; left; eauto]|].
        split; [intros H; now destruct (H Hrule)|intros _ _; eauto].
      * split; [split; [intros _; exact Hrule|intros _; right; reflexivity]|].
        split; [intros H; now destruct (H Hrule)|].
        intros _ Hc. now destruct (Hc key text Hget).
  - assert (Hrule : ~ pair_rule o).
    { intros H. apply Hiff in H. discriminate H. }
    cbn [returned world_after].
    split; [split; [|intros H; now destruct (Hrule H)]|].
    + intros [[score H]|H]; discriminate H.
    + split; [intros _; split; reflexivity|intros H; now destruct (Hrule H)].
Qed.

(** C6: on an authenticated [online_score] call by the admin login
    whose arguments satisfy the pair rule, the dispatcher returns OK
    with the score 42 and runs no store operation: the store, the
    server data and the record of events are as before. *)
Theorem admin_online_score (now_auth now_args : datetime)
    (body : kwargs) (req : MethodRequest) (o : OnlineScoreRequest)
    (ctx : context) (w : world) :
  online_score_call now_auth now_args body req o ->
  is_admin req = true ->
  pair_rule o ->
  let out := method_handler now_auth now_args body ctx w in
  returned out = score_response (VInt 42)
  /\ world_after out = w
  /\ events_since w (world_after out) = [].
Proof.
  intros Hcall Hadm Hrule. cbn zeta.
  destruct (method_handler_online_score _ _ _ _ _ ctx w Hcall) as [ctx' ->].
  apply any_pair_filled_iff in Hrule. rewrite Hrule, Hadm.
  cbn [negb returned world_after]. repeat split.
  unfold events_since. apply drop_all.
Qed.

(** C10: gender 0 counts as present. For a valid request object with
    gender 0 and a birthday, and every other field absent, the pair
    rule holds, and a call that is not the admin's returns, on a cache
    miss, OK with the score 1.5. *)
Theorem gender_zero_counts (now_auth now_args : datetime)
    (body : kwargs) (req : MethodRequest) (o : OnlineScoreRequest)
    (b : string) (ctx : context) (w : world) :
  online_score_call now_auth now_args body req o ->
  is_admin req = false ->
  gender o = Some (VInt 0) ->
  birthday o = Some b ->
  phone o = None -> email o = None ->
  first_name o = None -> last_name o = None ->
  (forall key,
      cache_key None (Some b) None None = Ok key ->
      fst (cache_get key w) = Ok None) ->
  let out := method_handler now_auth now_args body ctx w in
  pair_rule o
  /\ any_pair_filled o = true
  /\ returned out = score_response (VFloat 1.5).
Proof.
  intros Hcall Hadm Hg Hb Hph Hem Hfn Hln Hmiss. cbn zeta.
  destruct (method_handler_online_score _ _ _ _ _ ctx w Hcall) as [ctx' ->].
  assert (Hparse : strptime b <> None).
  { destruct Hcall as [_ _ _ (args & _ & Ho)].
    exact (OnlineScoreRequest_init_parses _ _ _ Ho b Hb). }
  assert (Hne : truthy_str b = true).
  { destruct b; [now destruct Hparse|reflexivity]. }
  assert (Hany : any_pair_filled o = true).
  { unfold any_pair_filled, pairs. rewrite Hg, Hb, Hph, Hem, Hfn, Hln.
    destruct b; [discriminate|reflexivity]. }
  split; [now apply any_pair_filled_iff|]. split; [exact Hany|].
  rewrite Hany, Hadm. cbn [negb returned].
  rewrite Hg, Hb, Hph, Hem, Hfn, Hln.
  destruct (cache_key_defined None (Some b) None None) as [key Hkey].
  { intros b' [= <-]. exact Hparse. }
  rewrite (get_score_miss w _ _ _ _ _ _ key Hkey (Hmiss key Hkey)).
  cbn [fst rbind]. unfold compute_score, truthy_opt_str, truthy_opt_int,
    some_and, is_Some_b. rewrite Hne. reflexivity.
Qed.


(** ** The store: success after failures, configuration *)

Lemma connects_cons (e : event) (l : list event) :
  connects (e :: l) = ((if is_attempt e then 0 else 1) + connects l)%nat.
Proof. unfold connects. destruct e; reflexivity. Qed.

Lemma next_fault_head (b : backend) :
  next_fault b = false <-> head (faults b) <> Some true.
Proof.
  unfold next_fault. destruct (faults b) as [|[|] fs]; simpl; split;
    intros H; try reflexivity; try discriminate; try congruence.
Qed.

Lemma retry_loop_succeeds {A} (c : Redis) (cmd : command)
    (reply : gmap string (string * Z) -> A) (j : nat) :
  forall k a w,
    Z.of_nat k = retries (store w) - a ->
    (j < k)%nat ->
    fails_then_works j (faults (redis w)) ->
    exists l,
      trace (redis (snd (retry_loop (redis_call c cmd reply) k a w)))
      = (trace (redis w) ++ l)%list
      /\ attempts l = S j
      /\ connects l = j
      /\ fst (retry_loop (redis_call c cmd reply) k a w)
         = Ok (reply (data (redis w)))
      /\ data (redis (snd (retry_loop (redis_call c cmd reply) k a w)))
         = run_command cmd (data (redis w))
      /\ faults (redis (snd (retry_loop (redis_call c cmd reply) k a w)))
         = drop (S j) (faults (redis w)).
Proof.
  induction j as [|j IH]; intros k a w Hk Hjk [Hall Hhead].
  - destruct k as [|k]; [lia|]. rewrite drop_0 in Hhead.
    apply next_fault_head in Hhead.
    rewrite retry_loop_first_ok by exact Hhead.
    destruct (redis_call_facts c cmd reply w)
      as (_ & Ht & _ & Htl & _ & Hgood).
    destruct (Hgood Hhead) as [Hr Hd]. rewrite Hhead in Ht.
    exists [Attempt (object_id c) cmd false].
    repeat split; assumption.
  - destruct k as [|k]; [lia|]. cbn [retry_loop].
    destruct (all_fail_cons j _ Hall) as (fs' & Hfs & Hall').
    destruct (redis_call_facts c cmd reply w)
      as (Hs & Ht & Hn & Htl & Hfail & _).
    assert (Hf : next_fault (redis w) = true)
      by (unfold next_fault; now rewrite Hfs).
    destruct (redis_call c cmd reply w) as [r w1]. cbn [fst snd] in *.
    destruct (Hfail Hf) as [-> Hd]. rewrite Hs, Hf in *.
    destruct (a =? retries (store w) - 1) eqn:Ha;
      [apply Z.eqb_eq in Ha; lia|].
    destruct (IH k (a + 1) (_connect w1)) as (l & Ht' & Hat & Hco & Hr & Hd' & Hfa).
    { simpl. rewrite Hs. lia. }
    { lia. }
    { simpl. rewrite Htl, Hfs. split; [exact Hall'|].
      rewrite Hfs in Hhead. exact Hhead. }
    exists (Attempt (object_id c) cmd true :: Connect (next_id (redis w1)) :: l).
    simpl in Hd', Hfa, Hr. rewrite Htl, Hfs in Hfa. rewrite Hd in Hd', Hr.
    repeat split.
    + rewrite Ht'. simpl. rewrite Ht, <- !app_assoc. reflexivity.
    + rewrite !attempts_cons, Hat. reflexivity.
    + rewrite !connects_cons, Hco. reflexivity.
    + exact Hr.
    + exact Hd'.
    + rewrite Hfa, Hfs. reflexivity.
Qed.

Lemma execute_with_retry_succeeds {A} (c : Redis) (cmd : command)
    (reply : gmap string (string * Z) -> A) (j : nat) (w : world) :
  (j < Z.to_nat (retries (store w)))%nat ->
  fails_then_works j (faults (redis w)) ->
  let out := _execute_with_retry (redis_call c cmd reply) w in
  attempts (events_since w (snd out)) = S j
  /\ connects (events_since w (snd out)) = j
  /\ fst out = Ok (reply (data (redis w)))
  /\ data (redis (snd out)) = run_command cmd (data (redis w))
  /\ faults (redis (snd out)) = drop (S j) (faults (redis w)).
Proof.
  intros Hj Hfw. cbn zeta. unfold _execute_with_retry.
  destruct (retry_loop_succeeds c cmd reply j
              (Z.to_nat (retries (store w))) 0 w)
    as (l & Ht & Hat & Hco & Hr & Hd & Hfa); [lia|exact Hj|exact Hfw|].
  rewrite (events_since_app _ _ l Ht). auto.
Qed.

(** X1: [Store.get] succeeds after [j] failed attempts when [j] is less
    than [retries]: it returns the value of the key (None when the key
    is absent), after [j + 1] attempts and [j] reconnections, and the
    data of the server is as before. *)
Theorem Store_get_after_failures (key : string) (j : nat) (w : world) :
  (j < Z.to_nat (retries (store w)))%nat ->
  fails_then_works j (faults (redis w)) ->
  let out := Store_get key w in
  fst out = Ok (fst <$> data (redis w) !! key)
  /\ attempts (events_since w (snd out)) = S j
  /\ connects (events_since w (snd out)) = j
  /\ data (redis (snd out)) = data (redis w).
Proof.
  intros Hj Hfw. cbn zeta. unfold Store_get, Redis_get.
  destruct (execute_with_retry_succeeds (client (store w)) (GET key)
              (fun d => fst <$> d !! key) j w Hj Hfw)
    as (Hat & Hco & Hr & Hd & _).
  auto.
Qed.





(** ** The store on a working connection *)

Lemma execute_working {A} (c : Redis) (cmd : command)
    (reply : gmap string (string * Z) -> A) (w : world) :
  working w ->
  let out := _execute_with_retry (redis_call c cmd reply) w in
  fst out = Ok (reply (data (redis w)))
  /\ store (snd out) = store w
  /\ data (redis (snd out)) = run_command cmd (data (redis w))
  /\ faults (redis (snd out)) = []
  /\ events_since w (snd out) = [Attempt (object_id c) cmd false].
Proof.
  intros [Hr Hf]. cbn zeta. unfold _execute_with_retry.
  destruct (Z.to_nat (retries (store w))) as [|k] eqn:Hk; [lia|].
  assert (Hnf : next_fault (redis w) = false)
    by (unfold next_fault; now rewrite Hf).
  rewrite retry_loop_first_ok by exact Hnf.
  destruct (redis_call_facts c cmd reply w)
    as (Hs & Ht & _ & Htl & _ & Hgood).
  destruct (Hgood Hnf) as [Hres Hd]. rewrite Hnf in Ht.
  repeat split; try assumption.
  - rewrite Htl, Hf. reflexivity.
  - now apply events_since_app.
Qed.

Lemma working_after {A} (c : Redis) (cmd : command)
    (reply : gmap string (string * Z) -> A) (w : world) :
  working w -> working (snd (_execute_with_retry (redis_call c cmd reply) w)).
Proof.
  intros Hw. destruct (execute_working c cmd reply w Hw)
    as (_ & Hs & _ & Hf & _).
  destruct Hw as [Hr _]. split; [now rewrite Hs|exact Hf].
Qed.

Lemma cache_get_working (key : string) (w : world) :
  working w ->
  fst (cache_get key w) = Ok (fst <$> data (redis w) !! key)
  /\ store (snd (cache_get key w)) = store w
  /\ data (redis (snd (cache_get key w))) = data (redis w)
  /\ working (snd (cache_get key w))
  /\ events_since w (snd (cache_get key w))
     = [Attempt (object_id (client (store w))) (GET key) false].
Proof.
  intros Hw. unfold cache_get, except_ConnectionError, Redis_get.
  pose proof (working_after (client (store w)) (GET key)
                (fun d => fst <$> d !! key) w Hw) as Hw'.
  destruct (execute_working (client (store w)) (GET key)
              (fun d => fst <$> d !! key) w Hw) as (Hr & Hs & Hd & Hf & He).
  destruct (_execute_with_retry _ w) as [r w1]. cbn [fst snd] in *.
  subst r. cbn [fst snd]. auto.
Qed.

Lemma cache_set_working (key : string) (value : float) (ttl : Z) (w : world) :
  working w ->
  store (snd (cache_set key value ttl w)) = store w
  /\ data (redis (snd (cache_set key value ttl w)))
     = <[key := (repr_float value, ttl)]> (data (redis w))
  /\ working (snd (cache_set key value ttl w))
  /\ events_since w (snd (cache_set key value ttl w))
     = [Attempt (object_id (client (store w)))
          (SETEX key ttl (repr_float value)) false].
Proof.
  intros Hw. unfold cache_set, except_ConnectionError, bind, Redis_setex.
  pose proof (working_after (client (store w))
                (SETEX key ttl (repr_float value)) (fun _ => true) w Hw)
    as Hw'.
  destruct (execute_working (client (store w))
              (SETEX key ttl (repr_float value)) (fun _ => true) w Hw)
    as (Hr & Hs & Hd & Hf & He).
  destruct (_execute_with_retry _ w) as [r w1]. cbn [fst snd] in *.
  subst r. cbn [fst snd ret]. auto.
Qed.

Lemma Store_get_working (key : string) (w : world) :
  working w ->
  fst (Store_get key w) = Ok (fst <$> data (redis w) !! key)
  /\ store (snd (Store_get key w)) = store w
  /\ data (redis (snd (Store_get key w))) = data (redis w)
  /\ working (snd (Store_get key w)).
Proof.
  intros Hw. unfold Store_get, Redis_get.
  pose proof (working_after (client (store w)) (GET key)
                (fun d => fst <$> d !! key) w Hw) as Hw'.
  destruct (execute_working (client (store w)) (GET key)
              (fun d => fst <$> d !! key) w Hw) as (Hr & Hs & Hd & _).
  auto.
Qed.

(** X3: On a working connection a value written with [cache_set] is what
    [cache_get] reads back under the same key, as the text the client
    library sent, with the time-to-live recorded; the other keys read
    as before. *)
Theorem cache_set_then_cache_get (key : string) (value : float) (ttl : Z)
    (w : world) :
  working w ->
  let w1 := snd (cache_set key value ttl w) in
  fst (cache_get key w1) = Ok (Some (repr_float value))
  /\ data (redis w1) !! key = Some (repr_float value, ttl)
  /\ (forall key', key' <> key ->
                   fst (cache_get key' w1) = fst (cache_get key' w)).
Proof.
  intros Hw. cbn zeta.
  destruct (cache_set_working key value ttl w Hw) as (_ & Hd & Hw1 & _).
  split; [|split].
  - destruct (cache_get_working key _ Hw1) as (-> & _).
    rewrite Hd, lookup_insert_eq. reflexivity.
  - rewrite Hd. apply lookup_insert_eq.
  - intros key' Hne.
    destruct (cache_get_working key' _ Hw1) as (-> & _).
    destruct (cache_get_working key' _ Hw) as (-> & _).
    rewrite Hd, lookup_insert_ne by congruence. reflexivity.
Qed.

(** ** Scoring: cache hits *)

Lemma retry_loop_data {A} (c : Redis) (cmd : command)
    (reply : gmap string (string * Z) -> A) (k : nat) :
  (forall d, run_command cmd d = d) ->
  forall a w,
    data (redis (snd (retry_loop (redis_call c cmd reply) k a w)))
    = data (redis w).
Proof.
  intros Hid. induction k as [|k IH]; intros a w; [reflexivity|].
  cbn [retry_loop].
  destruct (redis_call_facts c cmd reply w) as (_ & _ & _ & _ & Hfail & Hgood).
  destruct (redis_call c cmd reply w) as [r w1]. cbn [fst snd] in *.
  destruct (next_fault (redis w)).
  - destruct (Hfail eq_refl) as [-> Hd].
    destruct (a =? retries (store w1) - 1); [exact Hd|].
    rewrite IH. simpl. exact Hd.
  - destruct (Hgood eq_refl) as [-> Hd]. cbn [snd]. now rewrite Hd, Hid.
Qed.

Lemma commands_bound (cmd : command) (l : list event) :
  (forall id cm failed, In (Attempt id cm failed) l -> cm = cmd) ->
  Forall (fun c => c = cmd) (commands l).
Proof.
  induction l as [|[id cm failed|id] l IH]; intros H; cbn.
  - constructor.
  - constructor; [eapply H; now left|]. apply IH.
    intros id' cm' f' Hin. eapply H. right. exact Hin.
  - apply IH. intros id' cm' f' Hin. eapply H. right. exact Hin.
Qed.

(** What [cache_get] does to the server: nothing but GET commands for
    its key, and the data stays as it is. *)
Lemma cache_get_reads_only (key : string) (w : world) :
  data (redis (snd (cache_get key w))) = data (redis w)
  /\ Forall (fun c => c = GET key)
       (commands (events_since w (snd (cache_get key w)))).
Proof.
  unfold cache_get, except_ConnectionError, Redis_get.
  pose proof (retry_loop_data (client (store w)) (GET key)
                (fun d => fst <$> d !! key)
                (Z.to_nat (retries (store w))) (fun d => eq_refl) 0 w) as Hd.
  destruct (execute_with_retry_post (client (store w)) (GET key)
              (fun d => fst <$> d !! key) w)
    as (l & [Ht _ _ _ _ _ _ Hbc] & He).
  unfold _execute_with_retry in *.
  destruct (retry_loop _ _ 0 w) as [[v|e] w1]; cbn [fst snd ret] in *.
  - split; [exact Hd|]. rewrite (events_since_app _ _ l Ht).
    apply commands_bound. intros id cm f Hin. now destruct (Hbc id cm f Hin).
  - rewrite (He e eq_refl). cbn [snd ret].
    split; [exact Hd|]. rewrite (events_since_app _ _ l Ht).
    apply commands_bound. intros id cm f Hin. now destruct (Hbc id cm f Hin).
Qed.

(** X4: On a cache hit [get_score] returns the cached text read as a
    number (or lets the error of that reading escape) without computing
    or writing anything: the only commands sent are GETs for the key
    and the data of the server is as before. The email and the gender
    play no part. *)
Theorem get_score_cache_hit (w : world) (phone : option Z)
    (email birthday : option string) (gender : option pyval)
    (first_name last_name : option string) (key text : string) :
  cache_key phone birthday first_name last_name = Ok key ->
  fst (cache_get key w) = Ok (Some text) ->
  let out := get_score phone email birthday gender first_name last_name w in
  fst out = match float_of_str text with
            | Some x => Ok x
            | None => Raise float_error
            end
  /\ data (redis (snd out)) = data (redis w)
  /\ Forall (fun c => c = GET key) (commands (events_since w (snd out))).
Proof.
  intros Hkey Hhit. cbn zeta.
  destruct (cache_get_reads_only key w) as [Hd Hc].
  unfold get_score. rewrite Hkey. unfold bind.
  destruct (cache_get key w) as [r w1]. cbn [fst snd] in *. subst r.
  destruct (float_of_str text); cbn [fst snd]; auto.
Qed.

Lemma string_app_assoc (a b c : string) : (a ++ b) ++ c = a ++ (b ++ c).
Proof.
  induction a as [|x a IH]; [reflexivity|].
  change (String x ((a ++ b) ++ c) = String x (a ++ (b ++ c))).
  now f_equal.
Qed.

(** X6: The cache key is built by joining the identity fields with no
    separator, so it depends on the first and the last name only
    through their concatenation (an absent name counting as empty):
    requests that split the same text differently share one cache
    entry. *)
Theorem cache_key_concatenation (phone : option Z) (birthday : option string)
    (first_name last_name first_name' last_name' : option string) :
  or_empty first_name ++ or_empty last_name
  = or_empty first_name' ++ or_empty last_name' ->
  cache_key phone birthday first_name last_name
  = cache_key phone birthday first_name' last_name'.
Proof.
  intros H. unfold cache_key.
  destruct (match birthday with Some _ => _ | None => _ end) as [p|e];
    cbn [rbind]; [|reflexivity].
  do 2 f_equal. rewrite <- !string_app_assoc, H. reflexivity.
Qed.


(** X5: Two calls of [get_score] in a row on a working connection, for the
    same first name, last name, phone and birthday: the first one
    misses, computes and stores; the second one returns the same score
    from the cache, sending a single GET and no write, whatever email
    and gender it is given. The number must survive being written as
    text and read back. *)
Theorem get_score_twice (w : world) (phone : option Z)
    (email email' birthday : option string) (gender gender' : option pyval)
    (first_name last_name : option string) (key : string) :
  working w ->
  cache_key phone birthday first_name last_name = Ok key ->
  data (redis w) !! key = None ->
  let score :=
    compute_score phone email birthday gender first_name last_name in
  float_of_str (repr_float score) = Some score ->
  let out1 := get_score phone email birthday gender first_name last_name w in
  let out2 :=
    get_score phone email' birthday gender' first_name last_name (snd out1) in
  fst out1 = Ok score
  /\ fst out2 = Ok score
  /\ commands (events_since (snd out1) (snd out2)) = [GET key]
  /\ data (redis (snd out2)) = data (redis (snd out1)).
Proof.
  intros Hw Hkey Hnone. cbn zeta. intros Hround.
  destruct (cache_get_working key w Hw) as (Hg & _ & Hd1 & Hw1 & _).
  rewrite Hnone in Hg. cbn in Hg.
  rewrite (get_score_miss w _ _ _ _ _ _ key Hkey Hg). cbn [fst snd].
  set (score := compute_score phone email birthday gender first_name last_name)
    in *.
  destruct (cache_set_working key score (60 * 60) _ Hw1)
    as (_ & Hd2 & Hw2 & _).
  set (w2 := snd (cache_set key score (60 * 60) (snd (cache_get key w)))) in *.
  destruct (cache_get_working key w2 Hw2) as (Hg2 & _ & Hd3 & _ & He).
  rewrite Hd2, lookup_insert_eq in Hg2. cbn in Hg2.
  unfold get_score. rewrite Hkey. unfold bind.
  destruct (cache_get key w2) as [r w3]. cbn [fst snd] in *. subst r.
  rewrite Hround. cbn [ret fst snd]. rewrite He.
  repeat split; try reflexivity. exact Hd3.
Qed.

(** ** Interests *)

Lemma get_interests_working (cid : pyval) (w : world) :
  working w ->
  fst (get_interests cid w) = interests_of (data (redis w)) cid
  /\ data (redis (snd (get_interests cid w))) = data (redis w)
  /\ working (snd (get_interests cid w)).
Proof.
  intros Hw. unfold get_interests, bind, interests_of.
  destruct (Store_get_working ("i:" ++ str_cid cid) w Hw)
    as (Hr & _ & Hd & Hw1).
  destruct (Store_get _ w) as [r w1]. cbn [fst snd] in *. subst r.
  destruct (data (redis w) !! ("i:" ++ str_cid cid)) as [[text ttl]|];
    cbn [fmap option_fmap option_map fst]; [|auto].
  destruct (truthy_str text); [|auto].
  destruct (json_loads text); auto.
Qed.

Lemma Store_get_all_fail (key : string) (w : world) :
  all_fail (Z.to_nat (retries (store w))) (faults (redis w)) ->
  fst (Store_get key w) = Raise ConnectionError.
Proof.
  intros Hall. unfold Store_get, Redis_get.
  now destruct (execute_with_retry_all_fail (client (store w)) (GET key)
                  (fun d => fst <$> d !! key) w Hall) as (_ & Hr & _).
Qed.

(** X7: [get_interests] on a working connection: the empty list when the
    key "i:" + id is absent or holds the empty text, the parsed text
    when it is present, and the data of the server is as before. When
    every attempt meets a connection error, the error escapes. *)
Theorem get_interests_cases (cid : pyval) (w : world) :
  (working w ->
   data (redis (snd (get_interests cid w))) = data (redis w)
   /\ (data (redis w) !! ("i:" ++ str_cid cid) = None ->
       fst (get_interests cid w) = Ok (VList []))
   /\ (forall ttl,
          data (redis w) !! ("i:" ++ str_cid cid) = Some (EmptyString, ttl) ->
          fst (get_interests cid w) = Ok (VList []))
   /\ (forall c text ttl,
          data (redis w) !! ("i:" ++ str_cid cid)
          = Some (String c text, ttl) ->
          fst (get_interests cid w)
          = match json_loads (String c text) with
            | Some v => Ok v
            | None => Raise (ValueError "json")
            end))
  /\ (all_fail (Z.to_nat (retries (store w))) (faults (redis w)) ->
      fst (get_interests cid w) = Raise ConnectionError).
Proof.
  split.
  - intros Hw. destruct (get_interests_working cid w Hw) as (Hr & Hd & _).
    split; [exact Hd|]. rewrite Hr. unfold interests_of.
    split; [intros ->; reflexivity|]. split.
    + intros ttl ->. reflexivity.
    + intros c text ttl ->. reflexivity.
  - intros Hall. unfold get_interests, bind.
    pose proof (Store_get_all_fail ("i:" ++ str_cid cid) w Hall) as Hr.
    destruct (Store_get _ w) as [r w1]. cbn [fst] in *. now subst r.
Qed.

Lemma kw_get_dict_set (d : list (string * pyval)) (key key' : string)
    (value : pyval) :
  kw_get (dict_set d key value) key'
  = if String.eqb key key' then Some value else kw_get d key'.
Proof.
  induction d as [|[k v] d IH]; cbn [dict_set kw_get].
  - destruct (String.eqb key key'); reflexivity.
  - destruct (String.eqb k key) eqn:Hk; cbn [kw_get].
    + apply String.eqb_eq in Hk. subst k.
      destruct (String.eqb key key'); reflexivity.
    + rewrite IH. destruct (String.eqb key key') eqn:Hkk; [|reflexivity].
      apply String.eqb_eq in Hkk. subst key'. now rewrite Hk.
Qed.

Lemma interests_of_same_key (d : gmap string (string * Z)) (cid cid' : pyval) :
  str_cid cid = str_cid cid' -> interests_of d cid = interests_of d cid'.
Proof. unfold interests_of. now intros ->. Qed.

Lemma interests_loop_working (ids : list pyval) :
  forall response w,
    working w ->
    (forall cid, In cid ids -> is_ok (interests_of (data (redis w)) cid) = true) ->
    exists response',
      fst (interests_loop ids response w) = Ok response'
      /\ data (redis (snd (interests_loop ids response w))) = data (redis w)
      /\ (forall cid, In cid ids ->
            exists v, interests_of (data (redis w)) cid = Ok v
                      /\ kw_get response' (str_cid cid) = Some v)
      /\ (forall key, (forall cid, In cid ids -> str_cid cid <> key) ->
                      kw_get response' key = kw_get response key).
Proof.
  induction ids as [|cid ids IH]; intros response w Hw Hok.
  - exists response. cbn. repeat split; auto. intros cid [].
  - cbn [interests_loop]. unfold bind.
    destruct (get_interests_working cid w Hw) as (Hr & Hd & Hw1).
    destruct (get_interests cid w) as [r w1]. cbn [fst snd] in *.
    pose proof (Hok cid (or_introl eq_refl)) as Hcid.
    destruct (interests_of (data (redis w)) cid) as [v|e] eqn:Hv;
      [|discriminate]. subst r.
    destruct (IH (dict_set response (str_cid cid) v) w1 Hw1)
      as (response' & Hres & Hd' & Hin & Hout).
    { intros c Hc. rewrite Hd. apply Hok. now right. }
    exists response'. rewrite Hd in *.
    split; [exact Hres|]. split; [exact Hd'|]. split.
    + intros c [<-|Hc]; [|now apply Hin].
      destruct (existsb (fun c' => String.eqb (str_cid c') (str_cid cid)) ids)
        eqn:Hex.
      * apply existsb_exists in Hex as (c' & Hc' & Heq).
        apply String.eqb_eq in Heq.
        destruct (Hin c' Hc') as (v' & Hv' & Hk).
        rewrite (interests_of_same_key _ _ _ Heq), Hv in Hv'.
        injection Hv' as <-. exists v. rewrite <- Heq. auto.
      * exists v. split; [exact Hv|]. rewrite Hout.
        { rewrite kw_get_dict_set, String.eqb_refl. reflexivity. }
        intros c' Hc' Heq.
        assert (existsb (fun c' => String.eqb (str_cid c') (str_cid cid)) ids
                = true); [|congruence].
        apply existsb_exists. exists c'. split; [exact Hc'|].
        now apply String.eqb_eq.
    + intros key Hkey. rewrite Hout.
      * rewrite kw_get_dict_set.
        destruct (String.eqb (str_cid cid) key) eqn:Heq; [|reflexivity].
        apply String.eqb_eq in Heq. now destruct (Hkey cid (or_introl eq_refl)).
      * intros c Hc. apply Hkey. now right.
Qed.

(** The dispatcher on an authenticated [clients_interests] call. *)
Lemma method_handler_clients_interests (now_auth now_args : datetime)
    (body : kwargs) (req : MethodRequest) (ids : list pyval)
    (ctx : context) (w : world) :
  clients_interests_call now_auth body req ids ->
  method_handler now_auth now_args body ctx w
  = {| returned :=
         do response <- fst (interests_loop ids [] w);
         Ok (VDict response, OK);
       ctx_after := <["nclients" := VInt (Z.of_nat (length ids))]> ctx;
       world_after := snd (interests_loop ids [] w) |}.
Proof.
  intros [Hreq Hauth Hm (args & o & Hargs & Ho & Hids)].
  unfold method_handler. rewrite Hreq, Hauth, Hm, Hargs, Ho, Hids.
  cbn [negb some_and].
  change (String.eqb "online_score" "clients_interests") with false.
  change (String.eqb "clients_interests" "clients_interests") with true.
  cbv iota. destruct (interests_loop ids [] w) as [r w']. reflexivity.
Qed.

(** X8: An authenticated [clients_interests] call on a working connection,
    when the stored texts parse: the dispatcher returns OK with a
    mapping that gives, under the text of each requested id, the
    interests stored for that id (the empty list when none are stored),
    and has no other keys; it records the number of ids in the context
    and leaves the data of the server as it is. *)
Theorem clients_interests_response (now_auth now_args : datetime)
    (body : kwargs) (req : MethodRequest) (ids : list pyval)
    (ctx : context) (w : world) :
  clients_interests_call now_auth body req ids ->
  working w ->
  (forall cid, In cid ids -> is_ok (interests_of (data (redis w)) cid) = true) ->
  let out := method_handler now_auth now_args body ctx w in
  exists response,
    returned out = Ok (VDict response, OK)
    /\ (forall cid, In cid ids ->
          exists v, interests_of (data (redis w)) cid = Ok v
                    /\ kw_get response (str_cid cid) = Some v)
    /\ (forall key, (forall cid, In cid ids -> str_cid cid <> key) ->
                    kw_get response key = None)
    /\ ctx_after out !! "nclients" = Some (VInt (Z.of_nat (length ids)))
    /\ data (redis (world_after out)) = data (redis w).
Proof.
  intros Hcall Hw Hok. cbn zeta.
  rewrite (method_handler_clients_interests _ now_args _ _ _ ctx w Hcall).
  destruct (interests_loop_working ids [] w Hw Hok)
    as (response & Hres & Hd & Hin & Hout).
  exists response. cbn [returned ctx_after world_after].
  rewrite Hres. cbn [rbind]. repeat split; try assumption.
  apply lookup_insert_eq.
Qed.


(** ** Constructed request objects are valid *)









Lemma Field_set_required_Some {T} (name : string) (nullable : bool)
    (validate : pyval -> result T) (value : pyval) (v : option T) :
  Field_set name true nullable validate value = Ok v -> exists x, v = Some x.
Proof.
  unfold Field_set. destruct (is_None value); cbn; [discriminate|].
  destruct (validate value) as [x|e]; cbn [rbind]; [|discriminate].
  intros [= <-]. eauto.
Qed.

Lemma ClientIDsField_validate_shape (value : pyval) (ids : list pyval) :
  ClientIDsField_validate value = Ok ids ->
  ids <> [] /\ forallb isinstance_int ids = true.
Proof.
  unfold ClientIDsField_validate.
  destruct value as [| | | | |l|]; try discriminate.
  destruct l as [|x l]; [discriminate|].
  destruct (forallb isinstance_int (x :: l)) eqn:Hall; [|discriminate].
  intros [= <-]. split; [discriminate|exact Hall].
Qed.

Lemma DateField_validate_parses (value : pyval) (s : string) :
  DateField_validate value = Ok s -> strptime s <> None.
Proof.
  unfold DateField_validate.
  destruct value as [| | | |t| |]; try discriminate.
  destruct (strptime t) eqn:Hp; [|discriminate].
  intros [= <-]. congruence.
Qed.

Lemma ClientsInterestsRequest_fill_valid (kw : kwargs) :
  forall self o,
    valid_clients_interests self ->
    ClientsInterestsRequest_fill self kw = Ok o ->
    valid_clients_interests o.
Proof.
  induction kw as [|[key value] kw IH]; intros self o Hinv.
  - intros [= <-]. exact Hinv.
  - cbn [ClientsInterestsRequest_fill].
    destruct (ClientsInterestsRequest_setattr self key value) as [s|e] eqn:Hs;
      cbn [rbind]; [|discriminate].
    apply IH. destruct Hinv as [Hids Hdate].
    revert Hs. unfold ClientsInterestsRequest_setattr.
    repeat match goal with
           | |- context [String.eqb key ?f] => destruct (String.eqb key f)
           end;
      try (destruct (Field_set _ _ _ _ value) as [v|e] eqn:Hset;
           cbn [rbind]; [|discriminate]);
      intros [= <-]; constructor; cbn [client_ids date];
      try assumption; intros x Hx; subst v; apply Field_set_Some in Hset.
    + eapply ClientIDsField_validate_shape, Hset.
    + eapply DateField_validate_parses, Hset.
Qed.



(** ** The dispatcher when the store is unreachable *)



(** X9: When every attempt of the first store operation meets a
    connection error, an authenticated [clients_interests] call does not
    return: the connection error escapes the dispatcher. *)
Theorem clients_interests_store_down (now_auth now_args : datetime)
    (body : kwargs) (req : MethodRequest) (ids : list pyval)
    (ctx : context) (w : world) :
  clients_interests_call now_auth body req ids ->
  all_fail (Z.to_nat (retries (store w))) (faults (redis w)) ->
  returned (method_handler now_auth now_args body ctx w)
  = Raise ConnectionError.
Proof.
  intros Hcall Hall.
  rewrite (method_handler_clients_interests _ now_args _ _ _ ctx w Hcall).
  cbn [returned].
  assert (Hne : ids <> []).
  { destruct Hcall as [_ _ _ (args & o & _ & Ho & Hids)].
    revert Ho. unfold ClientsInterestsRequest_init. intros Ho.
    eapply ClientsInterestsRequest_fill_valid in Ho.
    - destruct Ho as [Hv _]. now destruct (Hv ids Hids).
    - constructor; intros x Hx; discriminate Hx. }
  destruct ids as [|cid ids]; [congruence|].
  cbn [interests_loop]. unfold bind, get_interests at 1, bind.
  pose proof (Store_get_all_fail ("i:" ++ str_cid cid) w Hall) as Hr.
  destruct (Store_get _ w) as [r w1]. cbn [fst] in *. subst r. reflexivity.
Qed.

(** ** The dispatcher: the score on a cache miss *)





(** ** The dispatcher: what it returns *)

Lemma method_handler_returned (now_auth now_args : datetime) (body : kwargs)
    (ctx : context) (w : world) (resp : pyval) (code : Z) :
  returned (method_handler now_auth now_args body ctx w) = Ok (resp, code) ->
  (code = OK /\ exists d, resp = VDict d)
  \/ ((code = FORBIDDEN \/ code = NOT_FOUND \/ code = INVALID_REQUEST)
      /\ world_after (method_handler now_auth now_args body ctx w) = w
      /\ ctx_after (method_handler now_auth now_args body ctx w) = ctx
      /\ exists msg, resp = VStr msg).
Proof.
  unfold method_handler.
  destruct (MethodRequest_init body) as [req|[msg| | |]];
    cbn [returned world_after ctx_after]; try discriminate.
  2:{ intros [= <- <-]. right. eauto 10. }
  destruct (negb (check_auth now_auth req));
    cbn [returned world_after ctx_after].
  { intros [= <- <-]. right. eauto 10. }
  destruct (some_and (String.eqb "online_score") (method req)).
  { destruct (arguments req) as [args|];
      cbn [returned world_after ctx_after]; [|discriminate].
    destruct (OnlineScoreRequest_init now_args args) as [o|[msg| | |]];
      cbn [returned world_after ctx_after]; try discriminate.
    2:{ intros [= <- <-]. right. eauto 10. }
    destruct (negb (any_pair_filled o)); cbn [returned world_after ctx_after].
    { intros [= <- <-]. right. eauto 10. }
    destruct (is_admin req); cbn [returned world_after ctx_after].
    { intros [= <- <-]. left. eauto. }
    destruct (get_score _ _ _ _ _ _ w) as [[x|e] w'];
      cbn [returned rbind]; [|discriminate].
    intros [= <- <-]. left. eauto. }
  destruct (some_and (String.eqb "clients_interests") (method req)).
  { destruct (arguments req) as [args|];
      cbn [returned world_after ctx_after]; [|discriminate].
    destruct (ClientsInterestsRequest_init args) as [o|[msg| | |]];
      cbn [returned world_after ctx_after]; try discriminate.
    2:{ intros [= <- <-]. right. eauto 10. }
    destruct (client_ids o) as [ids|];
      cbn [returned world_after ctx_after]; [|discriminate].
    destruct (interests_loop ids [] w) as [[x|e] w'];
      cbn [returned rbind]; [|discriminate].
    intros [= <- <-]. left. eauto. }
  cbn [returned world_after ctx_after].
  intros [= <- <-]. right. eauto 10.
Qed.

(** X15: Whatever the request, when the dispatcher returns, the code is
    200, 403, 404 or 422. With 200 the response is a mapping; with any
    other code the response is a message text, and the dispatcher has
    touched neither the store nor the context. *)
Theorem method_handler_codes (now_auth now_args : datetime) (body : kwargs)
    (ctx : context) (w : world) (resp : pyval) (code : Z) :
  returned (method_handler now_auth now_args body ctx w) = Ok (resp, code) ->
  (code = 200 /\ exists d, resp = VDict d)
  \/ ((code = 403 \/ code = 404 \/ code = 422)
      /\ world_after (method_handler now_auth now_args body ctx w) = w
      /\ ctx_after (method_handler now_auth now_args body ctx w) = ctx
      /\ exists msg, resp = VStr msg).
Proof.
  intros Hret.
  destruct (method_handler_returned _ _ _ _ _ _ _ Hret)
    as [[Hcode Hresp]|[Hcode Hrest]].
  - left. split; [exact Hcode|exact Hresp].
  - right. split; [exact Hcode|exact Hrest].
Qed.

(** ** Authentication: what the verdict depends on *)

(** X16: For the admin login the verdict depends on the clock only through
    the year, month, day and hour, and not on the account. For any
    other login it does not depend on the clock, and depends on the
    account and the login only through their concatenation (an absent
    one counting as empty): two requests with the same token whose
    account and login join to the same text get the same verdict. *)
Theorem check_auth_depends_on (now now' : datetime)
    (request request' : MethodRequest) :
  token request = token request' ->
  (is_admin request = true -> is_admin request' = true ->
   year now = year now' -> month now = month now' -> day now = day now' ->
   hour now = hour now' ->
   check_auth now request = check_auth now' request')
  /\ (is_admin request = false -> is_admin request' = false ->
      or_empty (account request) ++ or_empty (login request)
      = or_empty (account request') ++ or_empty (login request') ->
      check_auth now request = check_auth now' request').
Proof.
  intros Htok. unfold check_auth. rewrite Htok. split.
  - intros -> -> Hy Hm Hd Hh.
    unfold strftime_YmdH, strftime_Ymd. now rewrite Hy, Hm, Hd, Hh.
  - intros -> -> Hcat. rewrite <- !string_app_assoc, Hcat. reflexivity.
Qed.

(** ** Derived fields refine their base *)

(** A derived field accepts only what its base field accepts, with the
    same value: an email accepted by EmailField is accepted by
    CharField, a birthday accepted by BirthDayField is accepted by
    DateField. *)
Theorem derived_field_refines_base (name : string) (nullable : bool)
    (now : datetime) (value : pyval) (s : string) :
  (EmailField_validate name nullable value = Ok s ->
   CharField_validate name nullable value = Ok s)
  /\ (BirthDayField_validate now value = Ok s ->
      DateField_validate value = Ok s).
Proof.
  split.
  - unfold EmailField_validate.
    destruct (CharField_validate name nullable value) as [t|e];
      cbn [rbind]; [|discriminate].
    destruct (truthy_str t && negb (contains_char "@" t)); [discriminate|].
    intros [= <-]. reflexivity.
  - unfold BirthDayField_validate.
    destruct (DateField_validate value) as [t|e]; cbn [rbind]; [|discriminate].
    destruct (strptime t) as [d|]; [|discriminate].
    destruct (lt_minus_days d now (70 * 365)) as [[|]|e]; cbn [rbind];
      try discriminate.
    intros [= <-]. reflexivity.
Qed.


(** ** The attributes of a constructed MethodRequest *)

Ltac has_case k field :=
  destruct (String.eqb_spec k field) as [->|?];
  [first [congruence | reflexivity]|].

Ltac has_cases k :=
  unfold MethodRequest_has; cbn [account login token arguments method];
  has_case k "account"; has_case k "login"; has_case k "token";
  has_case k "arguments"; has_case k "method"; reflexivity.

Lemma MethodRequest_setattr_has (self s : MethodRequest) (key : string)
    (value : pyval) :
  MethodRequest_setattr self key value = Ok s ->
  (forall k, k <> key -> MethodRequest_has s k = MethodRequest_has self k)
  /\ (In key MethodRequest_required -> MethodRequest_has s key = true).
Proof.
  clear sha512_hex md5_hex float_of_str repr_float json_loads.
  unfold MethodRequest_setattr.
  destruct (String.eqb_spec key "account") as [->|Ha].
  { destruct (Field_set _ _ _ _ value) as [v|e]; cbn [rbind]; [|discriminate].
    intros [= <-]. split; [intros k Hk; has_cases k|].
    cbn. intuition discriminate. }
  destruct (String.eqb_spec key "login") as [->|Hl].
  { destruct (Field_set _ _ _ _ value) as [v|e] eqn:Hset; cbn [rbind];
      [|discriminate].
    destruct (Field_set_required_Some _ _ _ _ _ Hset) as [x ->].
    intros [= <-]. split; [intros k Hk; has_cases k|reflexivity]. }
  destruct (String.eqb_spec key "token") as [->|Ht].
  { destruct (Field_set _ _ _ _ value) as [v|e] eqn:Hset; cbn [rbind];
      [|discriminate].
    destruct (Field_set_required_Some _ _ _ _ _ Hset) as [x ->].
    intros [= <-]. split; [intros k Hk; has_cases k|reflexivity]. }
  destruct (String.eqb_spec key "arguments") as [->|Hg].
  { destruct (Field_set _ _ _ _ value) as [v|e] eqn:Hset; cbn [rbind];
      [|discriminate].
    destruct (Field_set_required_Some _ _ _ _ _ Hset) as [x ->].
    intros [= <-]. split; [intros k Hk; has_cases k|reflexivity]. }
  destruct (String.eqb_spec key "method") as [->|Hm].
  { destruct (Field_set _ _ _ _ value) as [v|e] eqn:Hset; cbn [rbind];
      [|discriminate].
    destruct (Field_set_required_Some _ _ _ _ _ Hset) as [x ->].
    intros [= <-]. split; [intros k Hk; has_cases k|reflexivity]. }
  intros [= <-]. split; [reflexivity|].
  cbn. intuition congruence.
Qed.

Lemma MethodRequest_fill_has (kw : kwargs) :
  forall self req,
    MethodRequest_fill self kw = Ok req ->
    Forall (fun kv => In (fst kv) allowed_fields) kw
    /\ (forall k, In k MethodRequest_required ->
                  In k (map fst kw) \/ MethodRequest_has self k = true ->
                  MethodRequest_has req k = true)
    /\ (forall k, ~ In k (map fst kw) ->
                  MethodRequest_has req k = MethodRequest_has self k).
Proof.
  clear sha512_hex md5_hex float_of_str repr_float json_loads.
  induction kw as [|[key value] kw IH]; intros self req.
  - intros [= <-]. cbn. repeat split; auto. intros k _ [[]|H]. exact H.
  - cbn [MethodRequest_fill].
    destruct (existsb (String.eqb key) allowed_fields) eqn:Hal;
      cbn [negb]; [|discriminate].
    destruct (MethodRequest_setattr self key value) as [s|e] eqn:Hs;
      cbn [rbind]; [|discriminate].
    intros Hfill. destruct (IH s req Hfill) as (Hall & Hreq & Hnot).
    destruct (MethodRequest_setattr_has self s key value Hs) as [Hoth Hkey].
    split; [|split].
    + constructor; [|exact Hall]. cbn [fst].
      apply existsb_exists in Hal as (f & Hf & Heq).
      apply String.eqb_eq in Heq. now subst.
    + intros k Hk Hor. apply Hreq; [exact Hk|].
      destruct (in_dec string_dec k (map fst kw)) as [Hin|Hnin]; [now left|].
      right. destruct (string_dec k key) as [->|Hne]; [now apply Hkey|].
      rewrite Hoth by exact Hne.
      destruct Hor as [[Heq|Hin]|H]; [cbn in Heq; congruence|tauto|exact H].
    + intros k Hk. cbn [map fst In] in Hk.
      rewrite Hnot by tauto. apply Hoth. intros ->. tauto.
Qed.

(** X14: A MethodRequest is constructed only from mappings whose keys are
    all among the five fields. In the constructed object every
    required field that the mapping has as a key is set, and no
    attribute is set whose name the mapping lacks. *)
Theorem MethodRequest_attributes (kw : kwargs) (req : MethodRequest) :
  MethodRequest_init kw = Ok req ->
  Forall (fun kv => In (fst kv) allowed_fields) kw
  /\ (forall k, In k MethodRequest_required -> In k (map fst kw) ->
                MethodRequest_has req k = true)
  /\ (forall k, ~ In k (map fst kw) -> MethodRequest_has req k = false).
Proof.
  clear sha512_hex md5_hex float_of_str repr_float json_loads.
  intros Hinit.
  destruct (MethodRequest_fill_has kw MethodRequest_empty req Hinit)
    as (Hall & Hreq & Hnot).
  split; [exact Hall|]. split.
  - intros k Hk Hin. apply Hreq; auto.
  - intros k Hk. rewrite (Hnot k Hk). unfold MethodRequest_has.
    cbn. now repeat destruct (String.eqb k _).
Qed.


(** ** The HTTP handler *)

Lemma errors_get_200 : errors_get ERRORS 200 = None.
Proof. reflexivity. Qed.

Lemma do_POST_error (code : Z) (text : string) (response : pyval) :
  errors_get ERRORS code = Some text ->
  text <> EmptyString ->
  py_truthy (if py_truthy response then response else VStr text) = true.
Proof.
  intros _ Ht. destruct (py_truthy response) eqn:Hr; [exact Hr|].
  destruct text; [congruence|reflexivity].
Qed.

(** X17: Every reply of [do_POST] has one of two shapes. Either the status
    is 200 and the body is {"response": ..., "code": 200}; or the
    status is 400, 403, 404, 422 or 500 and the body is
    {"error": ..., "code": status} with an error value that is never
    empty. *)
Theorem do_POST_envelope (now_auth now_args : datetime) (path : string)
    (parsed : option pyval) (context : gmap string pyval) (w : world) :
  let r := do_POST now_auth now_args path parsed context w in
  (status r = 200
   /\ exists response,
        written r = VDict [("response", response); ("code", VInt 200)])
  \/ ((status r = 400 \/ status r = 403 \/ status r = 404 \/ status r = 422
       \/ status r = 500)
      /\ exists e,
           written r = VDict [("error", e); ("code", VInt (status r))]
           /\ py_truthy e = true).
Proof.
  cbn zeta. unfold do_POST.
  destruct parsed as [request|]; cbn [py_truthy].
  2:{ right. cbn. split; [auto|]. eexists. split; reflexivity. }
  destruct (py_truthy request).
  2:{ left. cbn. eauto. }
  destruct (String.eqb (strip_slash path) "method").
  2:{ right. cbn. split; [auto|]. eexists. split; reflexivity. }
  destruct request as [| | | | | |body];
    try (right; cbn; split; [auto 6|]; eexists; split; reflexivity).
  destruct (returned (method_handler now_auth now_args body context w))
    as [[response code]|e] eqn:Hret.
  2:{ right. cbn. split; [auto 6|]. eexists. split; reflexivity. }
  destruct (method_handler_returned _ _ _ _ _ _ _ Hret)
    as [[-> [d ->]]|[Hcode (_ & _ & msg & ->)]].
  - left. cbn. eauto.
  - right.
    destruct Hcode as [-> | [-> | ->]]; cbn; (split; [auto 6|]);
      eexists; (split; [reflexivity|]); destruct msg; reflexivity.
Qed.

(** X18: A body that parses to a value Python counts as false (null, false,
    0, "", [] or {}) is answered with status 200 and an empty response:
    the dispatcher is not run and the store is untouched. *)
Theorem do_POST_falsy_body (now_auth now_args : datetime) (path : string)
    (request : pyval) (context : gmap string pyval) (w : world) :
  py_truthy request = false ->
  let r := do_POST now_auth now_args path (Some request) context w in
  status r = 200
  /\ written r = VDict [("response", VDict []); ("code", VInt 200)]
  /\ world_left r = w.
Proof.
  intros Hf. cbn zeta. unfold do_POST. rewrite Hf. cbn. auto.
Qed.

(** X19: The replies that do not come from the dispatcher. A body that
    cannot be read or parsed gives 400 "Bad Request"; a path other
    than "method" (slashes at both ends aside) gives 404 "Not Found"; a
    body that is not a mapping, or an exception that escapes the
    dispatcher, gives 500 "Internal Server Error". In the first three
    cases the store is untouched. *)
Theorem do_POST_transport_errors (now_auth now_args : datetime)
    (path : string) (context : gmap string pyval) (w : world) :
  (let r := do_POST now_auth now_args path None context w in
   status r = 400
   /\ written r = VDict [("error", VStr "Bad Request"); ("code", VInt 400)]
   /\ world_left r = w)
  /\ (forall request,
         py_truthy request = true ->
         strip_slash path <> "method" ->
         let r := do_POST now_auth now_args path (Some request) context w in
         status r = 404
         /\ written r = VDict [("error", VStr "Not Found"); ("code", VInt 404)]
         /\ world_left r = w)
  /\ (forall request,
         py_truthy request = true ->
         strip_slash path = "method" ->
         (forall body, request <> VDict body) ->
         let r := do_POST now_auth now_args path (Some request) context w in
         status r = 500
         /\ written r
            = VDict [("error", VStr "Internal Server Error");
                     ("code", VInt 500)]
         /\ world_left r = w)
  /\ (forall body e,
         body <> [] ->
         strip_slash path = "method" ->
         returned (method_handler now_auth now_args body context w) = Raise e ->
         let r :=
           do_POST now_auth now_args path (Some (VDict body)) context w in
         status r = 500
         /\ written r
            = VDict [("error", VStr "Internal Server Error");
                     ("code", VInt 500)]).
Proof.
  split; [cbn; auto|]. split; [|split].
  - intros request Ht Hp. cbn zeta. unfold do_POST. rewrite Ht.
    destruct (String.eqb_spec (strip_slash path) "method"); [congruence|].
    cbn. auto.
  - intros request Ht Hp Hnd. cbn zeta. unfold do_POST. rewrite Ht, Hp.
    cbn [String.eqb Ascii.eqb Bool.eqb].
    destruct request; try (cbn; auto; fail). now destruct (Hnd d).
  - intros body e Hne Hp Hret. cbn zeta. unfold do_POST.
    destruct body as [|kv body]; [congruence|]. cbn [py_truthy].
    rewrite Hp, Hret. cbn. auto.
Qed.

(** X20: What the dispatcher returns is what [do_POST] sends: a result with
    code 200 goes out as {"response": result, "code": 200}, a result
    with another code and a non-empty message as
    {"error": message, "code": code}; the status is the code. *)
Theorem do_POST_passes_result (now_auth now_args : datetime) (path : string)
    (body : kwargs) (context : gmap string pyval) (w : world)
    (response : pyval) (code : Z) :
  body <> [] ->
  strip_slash path = "method" ->
  returned (method_handler now_auth now_args body context w)
  = Ok (response, code) ->
  let r := do_POST now_auth now_args path (Some (VDict body)) context w in
  status r = code
  /\ world_left r = world_after (method_handler now_auth now_args body context w)
  /\ (code = 200 ->
      written r = VDict [("response", response); ("code", VInt 200)])
  /\ (code <> 200 -> py_truthy response = true ->
      written r = VDict [("error", response); ("code", VInt code)]).
Proof.
  intros Hne Hp Hret. cbn zeta. unfold do_POST.
  destruct body as [|kv body]; [congruence|]. cbn [py_truthy].
  rewrite Hp, Hret. cbn [String.eqb Ascii.eqb Bool.eqb status written world_left].
  split; [reflexivity|]. split; [reflexivity|].
  destruct (method_handler_returned _ _ _ _ _ _ _ Hret)
    as [[-> _]|[Hcode _]].
  - split; [reflexivity|]. intros H. now destruct H.
  - destruct Hcode as [-> | [-> | ->]]; (split; [discriminate|]);
      intros _ Htr; cbn; now rewrite Htr.
Qed.

End Api.

(** * Worked examples on the sample data *)

Local Abbreviation sample_handler :=
  (method_handler sample_sha512 sample_md5 sample_float_of_str
     sample_repr_float sample_json_loads sample_now sample_now).

Local Abbreviation sample_get_score :=
  (get_score sample_md5 sample_float_of_str sample_repr_float).

(** ** Decimal text and dates *)

Example str_int_phone : str_int 79175002040 = "79175002040".
Proof. reflexivity. Qed.

Example str_int_negative : str_int (-305) = "-305".
Proof. reflexivity. Qed.

Example str_int_zero : str_int 0 = "0".
Proof. reflexivity. Qed.

Example int_of_str_leading_zeros : int_of_str "0079" = 79.
Proof. reflexivity. Qed.

Example toordinal_epoch :
  toordinal {| year := 1970; month := 1; day := 1; hour := 0; minute := 0;
               second := 0; microsecond := 0 |} = 719163.
Proof. reflexivity. Qed.

Example strptime_date :
  strptime "30.01.1995"
  = Some {| year := 1995; month := 1; day := 30; hour := 0; minute := 0;
            second := 0; microsecond := 0 |}.
Proof. reflexivity. Qed.

Example strptime_short_day : option_map day (strptime "3.1.1995") = Some 3.
Proof. reflexivity. Qed.

Example strptime_iso_rejected : strptime "1995-01-30" = None.
Proof. reflexivity. Qed.

Example strptime_february :
  strptime "29.02.2000" <> None /\ strptime "29.02.1900" = None
  /\ strptime "31.04.2001" = None /\ strptime "01.01.0000" = None.
Proof. repeat split; try reflexivity. discriminate. Qed.

Example strftime_hour : strftime_YmdH sample_now = "2026110412".
Proof. reflexivity. Qed.

(** ** The cases of tests/test_api.py *)

Example test_char_field :
  Field_set "name" true false (CharField_validate "name" false) (VStr "test")
  = Ok (Some "test")
  /\ Field_set "name" true false (CharField_validate "name" false) VNone
     = Raise (ValueError "name is required")
  /\ Field_set "name" true false (CharField_validate "name" false)
       (VStr EmptyString)
     = Raise (ValueError "name cannot be empty")
  /\ Field_set "name" false true (CharField_validate "name" true) VNone
     = Ok None.
Proof. repeat split. Qed.

Example test_email_field :
  EmailField_validate "email" false (VStr "test_ex@gmail.com")
  = Ok "test_ex@gmail.com"
  /\ EmailField_validate "email" false (VStr "invalid")
     = Raise (ValueError "invalid email").
Proof. repeat split. Qed.

Example test_phone_field :
  PhoneField_validate (VStr "79865432101") = Ok 79865432101
  /\ PhoneField_validate (VStr "89865432101") = Raise phone_error.
Proof. repeat split. Qed.

Example test_birthday_field :
  BirthDayField_validate sample_now (VStr "30.01.1995") = Ok "30.01.1995"
  /\ BirthDayField_validate sample_now (VStr "01.01.1940")
     = Raise (ValueError "birthday too old").
Proof. repeat split. Qed.

Example test_gender_field :
  GenderField_validate (VInt 1) = Ok (VInt 1)
  /\ GenderField_validate (VInt 3)
     = Raise (ValueError "gender must be 0, 1 or 2").
Proof. repeat split. Qed.

Example test_client_ids_field :
  ClientIDsField_validate (VList [VInt 1; VInt 2; VInt 3])
  = Ok [VInt 1; VInt 2; VInt 3]
  /\ ClientIDsField_validate (VList [])
     = Raise (ValueError "client_ids cannot be empty").
Proof. repeat split. Qed.

Example test_invalid_request :
  returned (sample_handler [("invalid", VStr "data")] ∅ sample_world)
  = Ok (VStr "Unknown field: invalid", INVALID_REQUEST).
Proof. reflexivity. Qed.

Example test_bad_auth :
  returned
    (sample_handler
       [("account", VStr "horns&hoofs"); ("login", VStr "h&f");
        ("method", VStr "online_score"); ("token", VStr "wrong_token");
        ("arguments", VDict [])] ∅ sample_world)
  = Ok (VStr "Forbidden", FORBIDDEN).
Proof. reflexivity. Qed.

Example test_online_score :
  returned (sample_handler sample_body ∅ sample_world)
  = score_response (VFloat 3).
Proof. vm_compute. reflexivity. Qed.

Example test_get_with_retry :
  fst (Store_get "key"
         (Store_init "localhost" 6379 0 3 1
            {| data := {["key" := ("value", 0)]}; faults := [true; true];
               next_id := O; trace := [] |}))
  = Ok (Some "value").
Proof. vm_compute. reflexivity. Qed.

(** ** Inputs on which the specification and the code part *)

(** C2, as stated, fails: [method] and [arguments] are declared
    required and the mapping has neither key, yet the request object is
    constructed, with both attributes absent. *)
Lemma missing_required_key_constructs :
  In "method" (required_fields MethodRequest_class)
  /\ kw_get partial_body "method" = None
  /\ construct sample_now MethodRequest_class partial_body = Ok tt
  /\ MethodRequest_init partial_body
     = Ok {| account := None; login := Some "admin";
             token := Some "expected_digest"; arguments := None;
             method := None |}.
Proof.
  split; [simpl; tauto|]. repeat split.
Qed.

(** C7, as stated, fails: a date after the current moment is
    accepted. *)
Lemma future_birthday_accepted :
  exists date,
    strptime "01.01.2999" = Some date
    /\ timestamp_us sample_now < timestamp_us date
    /\ BirthDayField_validate sample_now (VStr "01.01.2999")
       = Ok "01.01.2999".
Proof.
  eexists. split; [reflexivity|]. split; reflexivity.
Qed.

(** C8, as stated, fails: a digits-only text of twelve digits that
    starts with 0 is accepted. *)
Lemma phone_leading_zero_accepted :
  isdigit "079175002040" = true
  /\ String.length "079175002040" = 12%nat
  /\ first_char "079175002040" = Some "0"%char
  /\ PhoneField_validate (VStr "079175002040") = Ok 79175002040.
Proof. repeat split. Qed.

(** C9, as stated, fails: the field as OnlineScoreRequest declares it
    accepts the empty text. *)
Lemma empty_email_accepted :
  EmailField_validate "email" true (VStr EmptyString) = Ok EmptyString
  /\ OnlineScoreRequest_init sample_now [("email", VStr EmptyString)]
     = Ok {| first_name := None; last_name := None;
             email := Some EmptyString; phone := None; birthday := None;
             gender := None |}.
Proof. split; reflexivity. Qed.

(** A dispatcher call that lacks a required key is not turned into an
    invalid-request response: the missing [client_ids] surfaces as a
    [TypeError]. *)
Example missing_client_ids_escapes :
  returned
    (sample_handler
       [("account", VStr "horns&hoofs"); ("login", VStr "h&f");
        ("method", VStr "clients_interests");
        ("token", VStr (sample_sha512 "horns&hoofsh&fOtus"));
        ("arguments", VDict [])] ∅ sample_world)
  = Raise TypeError.
Proof. reflexivity. Qed.

(** ** The theorems at the sample data *)

Lemma required_field_None_fails_witness :
  In "method" (required_fields MethodRequest_class)
  /\ construct sample_now MethodRequest_class
       (partial_body ++ [("method", VNone)])%list
     = Raise (ValueError "method is required").
Proof.
  assert (H : In "method" (required_fields MethodRequest_class))
    by (simpl; tauto).
  split; [exact H|].
  apply (proj2 (required_field_None_fails sample_now MethodRequest_class
                  "method" partial_body [] H)).
  reflexivity.
Defined.

Lemma online_score_call_sample :
  online_score_call sample_sha512 sample_now sample_now sample_body
    sample_request sample_object.
Proof.
  constructor; try reflexivity.
  exists sample_arguments. split; reflexivity.
Defined.

Lemma online_score_call_admin :
  online_score_call sample_sha512 sample_now sample_now sample_admin_body
    sample_admin_request sample_object.
Proof.
  constructor; try reflexivity.
  exists sample_arguments. split; reflexivity.
Defined.

Lemma online_score_call_gender :
  online_score_call sample_sha512 sample_now sample_now sample_gender_body
    sample_gender_request sample_gender_object.
Proof.
  constructor; try reflexivity.
  eexists. split; reflexivity.
Defined.

Lemma pair_rule_sample : pair_rule sample_object.
Proof. left. split; split; discriminate. Defined.

Lemma online_score_pair_rule_witness :
  online_score_call sample_sha512 sample_now sample_now sample_body
    sample_request sample_object
  /\ pair_rule sample_object
  /\ ((exists score,
          returned (sample_handler sample_body ∅ sample_world)
          = score_response score)
      \/ returned (sample_handler sample_body ∅ sample_world)
         = Raise float_error).
Proof.
  split; [exact online_score_call_sample|].
  split; [exact pair_rule_sample|].
  exact (proj2 (proj1 (online_score_pair_rule sample_sha512 sample_md5
                         sample_float_of_str sample_repr_float
                         sample_json_loads sample_now sample_now sample_body
                         sample_request sample_object ∅ sample_world
                         online_score_call_sample))
           pair_rule_sample).
Defined.

Lemma store_retry_contract_witness :
  all_fail 3 (faults (redis failing_world))
  /\ attempts
       (events_since failing_world
          (snd (perform sample_repr_float (Get "i:1") failing_world)))
     = 3%nat
  /\ fst (perform sample_repr_float (Get "i:1") failing_world)
     = Raise ConnectionError.
Proof.
  assert (Hall : all_fail (Z.to_nat (retries (store failing_world)))
                   (faults (redis failing_world))) by reflexivity.
  split; [exact Hall|].
  destruct (store_retry_contract sample_repr_float (Get "i:1") failing_world)
    as (_ & _ & _ & H & _).
  destruct (H Hall) as (Ha & _ & Hr).
  split; [exact Ha|exact Hr].
Defined.

Lemma get_score_cache_miss_witness :
  cache_key sample_md5 (Some 79175002040) None None None
  = Ok "uid:md5:79175002040"
  /\ fst (cache_get "uid:md5:79175002040" sample_world) = Ok None
  /\ fst (sample_get_score (Some 79175002040) (Some "a@b.com") None None
            None None sample_world)
     = Ok 3%float
  /\ data (redis (snd (sample_get_score (Some 79175002040) (Some "a@b.com")
                         None None None None sample_world)))
     !! "uid:md5:79175002040"
     = Some ("3.0", 3600).
Proof.
  assert (Hkey : cache_key sample_md5 (Some 79175002040) None None None
                 = Ok "uid:md5:79175002040") by reflexivity.
  assert (Hmiss : fst (cache_get "uid:md5:79175002040" sample_world) = Ok None)
    by (vm_compute; reflexivity).
  split; [exact Hkey|]. split; [exact Hmiss|].
  destruct (get_score_cache_miss sample_md5 sample_float_of_str
              sample_repr_float sample_world (Some 79175002040)
              (Some "a@b.com") None None None None "uid:md5:79175002040"
              Hkey Hmiss) as (Hscore & _ & _ & _ & Hstored).
  split; [exact Hscore|].
  apply Hstored; vm_compute; reflexivity.
Defined.

Lemma admin_online_score_witness :
  online_score_call sample_sha512 sample_now sample_now sample_admin_body
    sample_admin_request sample_object
  /\ is_admin sample_admin_request = true
  /\ pair_rule sample_object
  /\ returned (sample_handler sample_admin_body ∅ failing_world)
     = score_response (VInt 42)
  /\ world_after (sample_handler sample_admin_body ∅ failing_world)
     = failing_world.
Proof.
  split; [exact online_score_call_admin|].
  split; [reflexivity|]. split; [exact pair_rule_sample|].
  destruct (admin_online_score sample_sha512 sample_md5 sample_float_of_str
              sample_repr_float sample_json_loads sample_now sample_now
              sample_admin_body sample_admin_request sample_object ∅
              failing_world online_score_call_admin eq_refl pair_rule_sample)
    as (Hr & Hw & _).
  split; [exact Hr|exact Hw].
Defined.

Lemma gender_zero_counts_witness :
  online_score_call sample_sha512 sample_now sample_now sample_gender_body
    sample_gender_request sample_gender_object
  /\ cache_key sample_md5 None (Some "01.01.2000") None None
     = Ok "uid:md5:20000101"
  /\ fst (cache_get "uid:md5:20000101" sample_world) = Ok None
  /\ returned (sample_handler sample_gender_body ∅ sample_world)
     = score_response (VFloat 1.5).
Proof.
  split; [exact online_score_call_gender|].
  split; [reflexivity|].
  assert (Hmiss : fst (cache_get "uid:md5:20000101" sample_world) = Ok None)
    by (vm_compute; reflexivity).
  split; [exact Hmiss|].
  refine (proj2 (proj2 (gender_zero_counts sample_sha512 sample_md5
                          sample_float_of_str sample_repr_float
                          sample_json_loads sample_now sample_now
                          sample_gender_body sample_gender_request
                          sample_gender_object "01.01.2000" ∅ sample_world
                          online_score_call_gender eq_refl eq_refl eq_refl
                          eq_refl eq_refl eq_refl eq_refl _))).
  intros key [= <-]. exact Hmiss.
Defined.

Lemma BirthDayField_validate_iff_witness :
  strptime "30.01.1995"
  = Some {| year := 1995; month := 1; day := 30; hour := 0; minute := 0;
            second := 0; microsecond := 0 |}
  /\ 70 * 365 < toordinal sample_now
  /\ BirthDayField_validate sample_now (VStr "30.01.1995") = Ok "30.01.1995".
Proof.
  split; [reflexivity|]. split; [reflexivity|].
  apply (proj1 (BirthDayField_validate_iff sample_now "30.01.1995" _
                  eq_refl eq_refl)).
  vm_compute. discriminate.
Defined.

Lemma PhoneField_validate_spec_witness :
  PhoneField_validate (VStr "79175002040") = Ok 79175002040
  /\ PhoneField_validate (VStr "89175002040") = Raise phone_error
  /\ PhoneField_validate (VInt 7917500204) = Raise phone_error
  /\ PhoneField_validate (VStr "+79175002040")
     = Raise (ValueError "phone must be digits").
Proof.
  destruct PhoneField_validate_spec as (H11 & Hstr & Hint & Hbad & _).
  split; [exact (proj1 (H11 "79175002040" eq_refl eq_refl eq_refl))|].
  split.
  { apply (proj2 (Hstr "89175002040" eq_refl)).
    unfold phone_range. vm_compute. intros [_ H]. now apply H. }
  split.
  { apply (proj2 (Hint 7917500204)).
    unfold phone_range. vm_compute. intros [H _]. now apply H. }
  exact (Hbad "+79175002040" eq_refl).
Defined.

(** ** The further properties at the sample data *)

Local Abbreviation sample_do_POST :=
  (do_POST sample_sha512 sample_md5 sample_float_of_str sample_repr_float
     sample_json_loads sample_now sample_now).

Example strip_slash_paths :
  strip_slash "/method/" = "method" /\ strip_slash "//method" = "method"
  /\ strip_slash "method" = "method" /\ strip_slash "/" = EmptyString
  /\ strip_slash "/a/method" = "a/method".
Proof. repeat split. Qed.

Lemma Store_get_after_failures_witness :
  (2 < Z.to_nat (retries (store retry_world)))%nat
  /\ fails_then_works 2 (faults (redis retry_world))
  /\ fst (Store_get "key" retry_world) = Ok (Some "value")
  /\ attempts (events_since retry_world (snd (Store_get "key" retry_world)))
     = 3%nat
  /\ connects (events_since retry_world (snd (Store_get "key" retry_world)))
     = 2%nat.
Proof.
  assert (Hj : (2 < Z.to_nat (retries (store retry_world)))%nat)
    by (vm_compute; lia).
  assert (Hf : fails_then_works 2 (faults (redis retry_world)))
    by (split; [reflexivity|discriminate]).
  split; [exact Hj|]. split; [exact Hf|].
  destruct (Store_get_after_failures "key" 2 retry_world Hj Hf)
    as (Hr & Ha & Hc & _).
  split; [exact Hr|]. split; [exact Ha|exact Hc].
Defined.

Lemma configured_sample_world : configured sample_world.
Proof. unfold configured. vm_compute. repeat split; lia. Defined.

Lemma working_sample_world : working sample_world.
Proof. split; reflexivity. Defined.


Lemma cache_set_then_cache_get_witness :
  working sample_world
  /\ fst (cache_get "uid:1"
            (snd (cache_set sample_repr_float "uid:1" 1.5 3600 sample_world)))
     = Ok (Some "1.5").
Proof.
  split; [exact working_sample_world|].
  exact (proj1 (cache_set_then_cache_get sample_repr_float "uid:1" 1.5 3600
                  sample_world working_sample_world)).
Defined.

Lemma get_score_cache_hit_witness :
  cache_key sample_md5 (Some 79175002040) None None None
  = Ok "uid:md5:79175002040"
  /\ fst (cache_get "uid:md5:79175002040" cached_world) = Ok (Some "3.0")
  /\ fst (sample_get_score (Some 79175002040) None None None None None
            cached_world)
     = Ok 3%float.
Proof.
  assert (Hkey : cache_key sample_md5 (Some 79175002040) None None None
                 = Ok "uid:md5:79175002040") by reflexivity.
  assert (Hhit : fst (cache_get "uid:md5:79175002040" cached_world)
                 = Ok (Some "3.0")) by (vm_compute; reflexivity).
  split; [exact Hkey|]. split; [exact Hhit|].
  exact (proj1 (get_score_cache_hit sample_md5 sample_float_of_str
                  sample_repr_float cached_world (Some 79175002040) None None
                  None None None "uid:md5:79175002040" "3.0" Hkey Hhit)).
Defined.

Lemma get_score_twice_witness :
  working sample_world
  /\ cache_key sample_md5 (Some 79175002040) None None None
     = Ok "uid:md5:79175002040"
  /\ data (redis sample_world) !! "uid:md5:79175002040" = None
  /\ sample_float_of_str (sample_repr_float 3) = Some 3%float
  /\ fst (sample_get_score (Some 79175002040) None None (Some (VInt 1)) None
            None
            (snd (sample_get_score (Some 79175002040) (Some "a@b.com") None
                    None None None sample_world)))
     = Ok 3%float.
Proof.
  assert (Hkey : cache_key sample_md5 (Some 79175002040) None None None
                 = Ok "uid:md5:79175002040") by reflexivity.
  assert (Hnone : data (redis sample_world) !! "uid:md5:79175002040" = None)
    by (vm_compute; reflexivity).
  assert (Hround : sample_float_of_str (sample_repr_float 3) = Some 3%float)
    by reflexivity.
  split; [exact working_sample_world|]. split; [exact Hkey|].
  split; [exact Hnone|]. split; [exact Hround|].
  destruct (get_score_twice sample_md5 sample_float_of_str sample_repr_float
              sample_world (Some 79175002040) (Some "a@b.com") None None
              None (Some (VInt 1)) None None "uid:md5:79175002040"
              working_sample_world Hkey Hnone Hround) as (_ & H2 & _).
  exact H2.
Defined.

Lemma cache_key_concatenation_witness :
  or_empty (Some "ab") ++ or_empty (Some "c")
  = or_empty (Some "a") ++ or_empty (Some "bc")
  /\ cache_key sample_md5 None None (Some "ab") (Some "c")
     = cache_key sample_md5 None None (Some "a") (Some "bc").
Proof.
  split; [reflexivity|].
  apply (cache_key_concatenation sample_md5). reflexivity.
Defined.

Lemma working_interests_world : working interests_world.
Proof. split; reflexivity. Defined.

Lemma get_interests_cases_witness :
  working interests_world
  /\ data (redis interests_world) !! ("i:" ++ str_cid (VInt 2)) = None
  /\ fst (get_interests sample_json_loads (VInt 2) interests_world)
     = Ok (VList [])
  /\ all_fail (Z.to_nat (retries (store failing_world)))
       (faults (redis failing_world))
  /\ fst (get_interests sample_json_loads (VInt 2) failing_world)
     = Raise ConnectionError.
Proof.
  assert (Hnone : data (redis interests_world) !! ("i:" ++ str_cid (VInt 2))
                  = None) by (vm_compute; reflexivity).
  assert (Hall : all_fail (Z.to_nat (retries (store failing_world)))
                   (faults (redis failing_world))) by reflexivity.
  split; [exact working_interests_world|]. split; [exact Hnone|].
  split.
  - destruct (get_interests_cases sample_json_loads (VInt 2) interests_world)
      as [H _].
    destruct (H working_interests_world) as (_ & Habs & _).
    exact (Habs Hnone).
  - split; [exact Hall|].
    exact (proj2 (get_interests_cases sample_json_loads (VInt 2) failing_world)
             Hall).
Defined.

Lemma clients_interests_call_sample :
  clients_interests_call sample_sha512 sample_now sample_interests_body
    sample_interests_request [VInt 1; VInt 2].
Proof.
  constructor; try reflexivity.
  eexists; eexists. repeat split; reflexivity.
Defined.

Lemma interests_parse_sample :
  forall cid, In cid [VInt 1; VInt 2] ->
    is_ok (interests_of sample_json_loads (data (redis interests_world)) cid)
    = true.
Proof.
  intros cid [<-|[<-|[]]]; vm_compute; reflexivity.
Defined.

Lemma clients_interests_response_witness :
  clients_interests_call sample_sha512 sample_now sample_interests_body
    sample_interests_request [VInt 1; VInt 2]
  /\ working interests_world
  /\ exists response,
       returned (sample_handler sample_interests_body ∅ interests_world)
       = Ok (VDict response, OK)
       /\ kw_get response "3" = None.
Proof.
  split; [exact clients_interests_call_sample|].
  split; [exact working_interests_world|].
  destruct (clients_interests_response sample_sha512 sample_md5
              sample_float_of_str sample_repr_float sample_json_loads
              sample_now sample_now sample_interests_body
              sample_interests_request [VInt 1; VInt 2] ∅ interests_world
              clients_interests_call_sample working_interests_world
              interests_parse_sample)
    as (response & Hr & _ & Hout & _).
  exists response. split; [exact Hr|].
  apply Hout. intros cid [<-|[<-|[]]]; discriminate.
Defined.

Lemma all_fail_failing_world :
  all_fail (Z.to_nat (retries (store failing_world)))
    (faults (redis failing_world)).
Proof. reflexivity. Defined.


Lemma clients_interests_store_down_witness :
  clients_interests_call sample_sha512 sample_now sample_interests_body
    sample_interests_request [VInt 1; VInt 2]
  /\ all_fail (Z.to_nat (retries (store failing_world)))
       (faults (redis failing_world))
  /\ returned (sample_handler sample_interests_body ∅ failing_world)
     = Raise ConnectionError.
Proof.
  split; [exact clients_interests_call_sample|].
  split; [exact all_fail_failing_world|].
  exact (clients_interests_store_down sample_sha512 sample_md5
           sample_float_of_str sample_repr_float sample_json_loads
           sample_now sample_now sample_interests_body
           sample_interests_request [VInt 1; VInt 2] ∅ failing_world
           clients_interests_call_sample all_fail_failing_world).
Defined.




Lemma method_handler_codes_witness :
  returned (sample_handler wrong_token_body ∅ sample_world)
  = Ok (VStr "Forbidden", 403)
  /\ world_after (sample_handler wrong_token_body ∅ sample_world)
     = sample_world.
Proof.
  assert (Hr : returned (sample_handler wrong_token_body ∅ sample_world)
               = Ok (VStr "Forbidden", 403)) by reflexivity.
  split; [exact Hr|].
  destruct (method_handler_codes sample_sha512 sample_md5 sample_float_of_str
              sample_repr_float sample_json_loads sample_now sample_now
              wrong_token_body ∅ sample_world _ _ Hr)
    as [[H _]|(_ & Hw & _)]; [discriminate H|exact Hw].
Defined.

Lemma check_auth_depends_on_witness :
  token sample_request
  = token {| account := Some "horns&hoofsh"; login := Some "&f";
             token := Some (sample_sha512 "horns&hoofsh&fOtus");
             arguments := None; method := None |}
  /\ check_auth sample_sha512 sample_now sample_request
     = check_auth sample_sha512 sample_now
         {| account := Some "horns&hoofsh"; login := Some "&f";
            token := Some (sample_sha512 "horns&hoofsh&fOtus");
            arguments := None; method := None |}.
Proof.
  split; [reflexivity|].
  apply (proj2 (check_auth_depends_on sample_sha512 sample_now sample_now
                  sample_request _ eq_refl)); reflexivity.
Defined.

Lemma MethodRequest_attributes_witness :
  MethodRequest_init sample_body = Ok sample_request
  /\ In "login" MethodRequest_required
  /\ In "login" (map fst sample_body)
  /\ MethodRequest_has sample_request "login" = true.
Proof.
  assert (Hin : In "login" MethodRequest_required) by (simpl; tauto).
  assert (Hk : In "login" (map fst sample_body)) by (simpl; tauto).
  split; [reflexivity|]. split; [exact Hin|]. split; [exact Hk|].
  destruct (MethodRequest_attributes sample_body sample_request eq_refl)
    as (_ & Hreq & _).
  exact (Hreq "login" Hin Hk).
Defined.

Lemma do_POST_falsy_body_witness :
  py_truthy (VDict []) = false
  /\ status (sample_do_POST "/method/" (Some (VDict [])) ∅ sample_world) = 200
  /\ written (sample_do_POST "/method/" (Some (VDict [])) ∅ sample_world)
     = VDict [("response", VDict []); ("code", VInt 200)].
Proof.
  split; [reflexivity|].
  destruct (do_POST_falsy_body sample_sha512 sample_md5 sample_float_of_str
              sample_repr_float sample_json_loads sample_now sample_now
              "/method/" (VDict []) ∅ sample_world eq_refl) as (Hs & Hw & _).
  split; [exact Hs|exact Hw].
Defined.

Lemma do_POST_transport_errors_witness :
  py_truthy (VList [VInt 1]) = true
  /\ strip_slash "/method/" = "method"
  /\ status (sample_do_POST "/method/" (Some (VList [VInt 1])) ∅ sample_world)
     = 500
  /\ strip_slash "/score" <> "method"
  /\ status (sample_do_POST "/score" (Some (VList [VInt 1])) ∅ sample_world)
     = 404.
Proof.
  destruct (do_POST_transport_errors sample_sha512 sample_md5
              sample_float_of_str sample_repr_float sample_json_loads
              sample_now sample_now "/method/" ∅ sample_world)
    as (_ & _ & H500 & _).
  destruct (do_POST_transport_errors sample_sha512 sample_md5
              sample_float_of_str sample_repr_float sample_json_loads
              sample_now sample_now "/score" ∅ sample_world)
    as (_ & H404 & _).
  split; [reflexivity|]. split; [reflexivity|]. split.
  - apply (H500 (VList [VInt 1]) eq_refl eq_refl). discriminate.
  - split; [discriminate|].
    apply (H404 (VList [VInt 1]) eq_refl). discriminate.
Defined.

Lemma do_POST_passes_result_witness :
  sample_body <> []
  /\ strip_slash "/method/" = "method"
  /\ returned (sample_handler sample_body ∅ sample_world)
     = Ok (VDict [("score", VFloat 3)], 200)
  /\ written (sample_do_POST "/method/" (Some (VDict sample_body)) ∅
                sample_world)
     = VDict [("response", VDict [("score", VFloat 3)]); ("code", VInt 200)].
Proof.
  assert (Hne : sample_body <> []) by discriminate.
  assert (Hr : returned (sample_handler sample_body ∅ sample_world)
               = Ok (VDict [("score", VFloat 3)], 200))
    by (vm_compute; reflexivity).
  split; [exact Hne|]. split; [reflexivity|]. split; [exact Hr|].
  destruct (do_POST_passes_result sample_sha512 sample_md5
              sample_float_of_str sample_repr_float sample_json_loads
              sample_now sample_now "/method/" sample_body ∅ sample_world
              _ _ Hne eq_refl Hr) as (_ & _ & H200 & _).
  exact (H200 eq_refl).
Defined.

Lemma derived_field_refines_base_witness :
  EmailField_validate "email" true (VStr "a@b.com") = Ok "a@b.com"
  /\ CharField_validate "email" true (VStr "a@b.com") = Ok "a@b.com".
Proof.
  split; [reflexivity|].
  exact (proj1 (derived_field_refines_base "email" true sample_now
                  (VStr "a@b.com") "a@b.com") eq_refl).
Defined.
